(** * Blog-writing agents: the tool server and the two UI shells

    A shallow embedding of
      - [src/mcp/search_mcp/1/model.py]  (module [SearchMcp]),
      - [src/app.py]                     (module [DirectApp]),
      - [src/mcp/app.py]                 (module [McpApp]),
      - [src/mcp/search_mcp/client.py]   (module [SearchMcpClient]),
      - [src/mcp/create_app.py]          (module [CreateApp]),
    over a small model of the Python values the code handles (module [Py]).

    Conventions of the embedding.
      - A Python [str] is a [string]. Texts that vary (the topic, an article,
        a URL, a message) are taken to be ASCII, one [ascii] for one
        character; the literals of the sources that hold other characters
        are kept as their UTF-8 bytes, which no operation here inspects.
      - A JSON document returned by a service is a [Py.value]; a Python
        [dict] with string keys is an association list read from the left.
        Floats are left out.
      - A call that may raise returns an [outcome]; only exceptions of class
        [Exception] are modelled (this is what [except Exception] catches).
        The messages of the exceptions the interpreter raises follow
        CPython 3.11; no statement below depends on them, except the key
        quoted by a [KeyError].
      - The search service, the article extractor, the tool adapter and the
        orchestration runtime are external: they are parameters of the
        functions that call them, their answer depends on the request only,
        and every call to them is logged. Constructors and widgets of the
        libraries are taken not to raise. *)

From Stdlib Require Import ZArith Ascii String List Bool Lia.
From stdpp Require Import base option list gmap strings pretty.

Set Warnings "-register-all,-clear-no-such-hyp".

Local Open Scope Z_scope.
Local Open Scope list_scope.
Local Open Scope stdpp_scope.

(* ===================================================================== *)
(** * Python values, exceptions and the operations the sources use       *)
(* ===================================================================== *)

Module Py.

(** The values a parsed JSON document is made of. *)
Inductive value : Type :=
| VNone
| VBool (b : bool)
| VInt (n : Z)
| VStr (s : string)
| VList (l : list value)
| VDict (d : list (string * value)).

Abbreviation dict := (list (string * value)).

(** An exception object: its class and [str(e)]. *)
Inductive exn : Type :=
| Exception (cls : string) (msg : string).

Definition exc_class (e : exn) : string := let 'Exception c _ := e in c.

(** [str(e)] *)
Definition str_exn (e : exn) : string := let 'Exception _ m := e in m.

Inductive outcome (A : Type) : Type :=
| Ok (a : A)
| Raise (e : exn).
Arguments Ok {A} a.
Arguments Raise {A} e.


Definition obind {A B} (o : outcome A) (k : A -> outcome B) : outcome B :=
  match o with
  | Ok a => k a
  | Raise e => Raise e
  end.

(** ** Strings *)

Definition squote : string := String "039"%char EmptyString.
Definition dquote : string := String "034"%char EmptyString.

(** [str.isspace] on one character, for the ASCII range: TAB, LF, VT, FF,
    CR, the four separators FS, GS, RS, US, and the space. *)
Definition isspace (c : ascii) : bool :=
  match c with
  | "009" | "010" | "011" | "012" | "013"
  | "028" | "029" | "030" | "031" | " " => true
  | _ => false
  end%char.

Fixpoint lstrip (s : string) : string :=
  match s with
  | String c s' => if isspace c then lstrip s' else s
  | EmptyString => EmptyString
  end.

(** Removes trailing white space: a character is kept when it is not a
    space or when something is kept after it. *)
Fixpoint rstrip (s : string) : string :=
  match s with
  | EmptyString => EmptyString
  | String c s' =>
      match rstrip s' with
      | EmptyString => if isspace c then EmptyString else String c EmptyString
      | r => String c r
      end
  end.

(** [s.strip()] *)
Definition strip (s : string) : string := rstrip (lstrip s).

Fixpoint all_chars (p : ascii -> bool) (s : string) : bool :=
  match s with
  | EmptyString => true
  | String c s' => p c && all_chars p s'
  end.

Fixpoint map_chars (f : ascii -> ascii) (s : string) : string :=
  match s with
  | EmptyString => EmptyString
  | String c s' => String (f c) (map_chars f s')
  end.

(** [s.replace(old, new)] for one-character [old] and [new]. *)
Definition replace_char (old new : ascii) (s : string) : string :=
  map_chars (fun c => if Ascii.eqb c old then new else c) s.

Definition lower_char (c : ascii) : ascii :=
  let n := nat_of_ascii c in
  if (Nat.leb 65 n && Nat.leb n 90)%bool then ascii_of_nat (n + 32) else c.

(** [s.lower()], on ASCII letters. *)
Definition lower (s : string) : string := map_chars lower_char s.

(** [s[:n]] on a string *)
Fixpoint str_prefix (n : nat) (s : string) : string :=
  match n, s with
  | S n', String c s' => String c (str_prefix n' s')
  | _, _ => EmptyString
  end.

(** [s.startswith(p)] *)
Definition startswith (p s : string) : bool := String.prefix p s.

(** ** Dynamic operations on values *)

Definition type_name (v : value) : string :=
  match v with
  | VNone => "NoneType"
  | VBool _ => "bool"
  | VInt _ => "int"
  | VStr _ => "str"
  | VList _ => "list"
  | VDict _ => "dict"
  end.

Definition TypeError (msg : string) : exn := Exception "TypeError" msg.
Definition AttributeError (v : value) (attr : string) : exn :=
  Exception "AttributeError"
    (squote +:+ type_name v +:+ "' object has no attribute '" +:+ attr +:+ squote).
Definition KeyError (repr_key : string) : exn := Exception "KeyError" repr_key.
Definition IndexError (what : string) : exn :=
  Exception "IndexError" (what +:+ " index out of range").
Definition not_subscriptable (v : value) : exn :=
  TypeError (squote +:+ type_name v +:+ "' object is not subscriptable").

(** Truth value of an object, as tested by [if x:] and [not x]. *)
Definition truthy (v : value) : bool :=
  match v with
  | VNone => false
  | VBool b => b
  | VInt n => negb (n =? 0)
  | VStr s => negb (String.eqb s "")
  | VList l => match l with [] => false | _ => true end
  | VDict d => match d with [] => false | _ => true end
  end.

Fixpoint dict_lookup (d : dict) (k : string) : option value :=
  match d with
  | [] => None
  | (k', v) :: d' => if String.eqb k' k then Some v else dict_lookup d' k
  end.

(** [d.get(k, default)] on a dict *)
Definition dict_get (d : dict) (k : string) (default : value) : value :=
  match dict_lookup d k with
  | Some v => v
  | None => default
  end.

(** [k in d] on a dict *)
Definition dict_contains (d : dict) (k : string) : bool :=
  match dict_lookup d k with Some _ => true | None => false end.

(** [v.get(k, default)] on any object: only a dict has the method. *)
Definition get (v : value) (k : string) (default : value) : outcome value :=
  match v with
  | VDict d => Ok (dict_get d k default)
  | _ => Raise (AttributeError v "get")
  end.

Fixpoint chars (s : string) : list value :=
  match s with
  | EmptyString => []
  | String c s' => VStr (String c EmptyString) :: chars s'
  end.

(** [v[:n]] *)
Definition slice_to (v : value) (n : nat) : outcome value :=
  match v with
  | VList l => Ok (VList (firstn n l))
  | VStr s => Ok (VStr (str_prefix n s))
  | VDict _ => Raise (TypeError "unhashable type: 'slice'")
  | _ => Raise (not_subscriptable v)
  end.

(** The items a [for] loop or a comprehension draws from [v]. *)
Definition iter (v : value) : outcome (list value) :=
  match v with
  | VList l => Ok l
  | VStr s => Ok (chars s)
  | VDict d => Ok (map (fun kv => VStr (fst kv)) d)
  | _ => Raise (TypeError (squote +:+ type_name v +:+ "' object is not iterable"))
  end.

(** [v[k]] with a string key *)
Definition getitem_key (v : value) (k : string) : outcome value :=
  match v with
  | VDict d =>
      match dict_lookup d k with
      | Some x => Ok x
      | None => Raise (KeyError (squote +:+ k +:+ squote))
      end
  | VList _ => Raise (TypeError "list indices must be integers or slices, not str")
  | VStr _ => Raise (TypeError "string indices must be integers, not 'str'")
  | _ => Raise (not_subscriptable v)
  end.

(** [l[i]] on a list of length [n]: a negative index counts from the end. *)
Definition list_index {A} (l : list A) (i : Z) : option A :=
  let n := Z.of_nat (length l) in
  let j := if i <? 0 then i + n else i in
  if (0 <=? j) && (j <? n) then nth_error l (Z.to_nat j) else None.

(** [v[i]] with an integer index *)
Definition getitem_int (v : value) (i : Z) : outcome value :=
  match v with
  | VList l =>
      match list_index l i with
      | Some x => Ok x
      | None => Raise (IndexError "list")
      end
  | VStr s =>
      match list_index (chars s) i with
      | Some x => Ok x
      | None => Raise (IndexError "string")
      end
  | VDict _ => Raise (KeyError (pretty i))
  | _ => Raise (not_subscriptable v)
  end.

(** [sep.join(items)]: every item must be a [str]. *)
Fixpoint join_from (sep : string) (items : list value) (pos : nat) : outcome string :=
  match items with
  | [] => Ok ""
  | VStr s :: rest =>
      match rest with
      | [] => Ok s
      | _ => obind (join_from sep rest (S pos)) (fun r => Ok (s +:+ sep +:+ r))
      end
  | v :: _ =>
      Raise (TypeError ("sequence item " +:+ pretty pos +:+ ": expected str instance, "
                          +:+ type_name v +:+ " found"))
  end.

Definition join (sep : string) (items : list value) : outcome string :=
  join_from sep items 0.

End Py.

(* ===================================================================== *)
(** * The tool server: [src/mcp/search_mcp/1/model.py]                   *)
(* ===================================================================== *)

Module SearchMcp.
Import Py.

(** The functions the server exposes. *)
Inductive tool_fn : Type :=
| Fn_multi_engine_search
| Fn_extract_web_content_from_links
| Fn_keyword_research.

Record tool : Type := Tool {
  tool_name : string;
  tool_description : string;
  tool_handler : tool_fn
}.

(** A [FastMCP] server object: its name and the tools registered so far. *)
Record FastMCP : Type := MkFastMCP {
  mcp_name : string;
  mcp_tools : list tool
}.

(** The module-level variables of [model.py]. *)
Record globals : Type := Globals {
  server : FastMCP;
  SERPAPI_API_KEY : value
}.

(** A call to an external library. *)
Inductive request : Type :=
| GoogleSearch_get_dict (params : dict)
| Article_download_parse (url : string).

(** What a call can see and change: the module's globals, and the calls made
    to the outside so far (oldest first). *)
Record world : Type := World {
  module_globals : globals;
  requests : list request
}.

(** Computations of the module: they thread the world and may raise. *)
Definition M (A : Type) : Type := world -> outcome A * world.

Definition ret {A} (a : A) : M A := fun w => (Ok a, w).

Definition bind {A B} (m : M A) (k : A -> M B) : M B :=
  fun w =>
    match m w with
    | (Ok a, w') => k a w'
    | (Raise e, w') => (Raise e, w')
    end.

(** A pure step that may raise. *)
Definition lift {A} (o : outcome A) : M A := fun w => (o, w).

Definition read_SERPAPI_API_KEY : M value :=
  fun w => (Ok (SERPAPI_API_KEY (module_globals w)), w).

Definition log (r : request) (w : world) : world :=
  World (module_globals w) (requests w ++ [r]).

Declare Scope py_scope.
Delimit Scope py_scope with py.
Notation "x <- m ;; k" := (bind m (fun x => k))
  (at level 100, m at next level, right associativity) : py_scope.
Local Open Scope py_scope.

(** ** Module initialisation: the statements run at import *)

(** [FastMCP(name)] *)
Definition FastMCP_new (name : string) : FastMCP := MkFastMCP name [].

(** [@srv.tool(name, description=...)] applied to [fn]. *)
Definition FastMCP_tool (srv : FastMCP) (name description : string) (fn : tool_fn)
  : FastMCP :=
  MkFastMCP (mcp_name srv) (mcp_tools srv ++ [Tool name description fn]).

Definition multi_engine_search_description : string :=
  "Query a search engine and return the top 5 blog/article links based on a search query.".
Definition extract_web_content_from_links_description : string :=
  "Extracts main article content from a list of blog or article URLs using newspaper3k.".
Definition keyword_research_description : string :=
  "Automate keyword research to find high-potential keywords based on a topic, using autocomplete and trends.".

(** The globals once the module is imported; [getenv] is [os.getenv]. *)
Definition module_init (getenv : string -> value) : globals :=
  let server0 := FastMCP_new "blog_writing_search_mcp" in
  let key := getenv "SERPER_API_KEY" in
  let server1 := FastMCP_tool server0 "multi_engine_search"
                   multi_engine_search_description Fn_multi_engine_search in
  let server2 := FastMCP_tool server1 "extract_web_content_from_links"
                   extract_web_content_from_links_description
                   Fn_extract_web_content_from_links in
  let server3 := FastMCP_tool server2 "keyword_research"
                   keyword_research_description Fn_keyword_research in
  Globals server3 key.

(** [MyModelClass.get_server] *)
Definition get_server : M FastMCP :=
  fun w => (Ok (server (module_globals w)), w).

(** The names called in each function body, in source order (methods as
    [object.method]). *)
Definition call_sites (f : tool_fn) : list string :=
  match f with
  | Fn_multi_engine_search =>
      ["GoogleSearch"; "search.get_dict"; "results.get"; "result.get";
       "links.append"]
  | Fn_extract_web_content_from_links =>
      ["Article"; "article.download"; "article.parse"; "str"]
  | Fn_keyword_research =>
      ["GoogleSearch"; "search.get_dict"; "autocomplete_results.get";
       "str.join"; "GoogleSearch"; "search.get_dict";
       "trends_results[interest_over_time].get"; "enumerate";
       "timeline_data[-1][values][i].get"; "keyword_data.append";
       "keyword_data.append"]
  end.

(** The [params] dict of [multi_engine_search]. *)
Definition search_params (key : value) (query engine location device : string)
  : dict :=
  [("api_key", key); ("engine", VStr engine); ("q", VStr query);
   ("location", VStr location); ("device", VStr device)].

(** [autocomplete_params] and [trends_params] of [keyword_research]. *)
Definition autocomplete_params (key : value) (topic : string) : dict :=
  [("api_key", key); ("engine", VStr "google_autocomplete"); ("q", VStr topic)].

Definition trends_params (key : value) (q : string) : dict :=
  [("api_key", key); ("engine", VStr "google_trends"); ("q", VStr q);
   ("data_type", VStr "TIMESERIES")].

Section Tools.

(** [GoogleSearch(params).get_dict()]: the parsed response, or an exception. *)
Variable search_service : dict -> outcome dict.

(** [Article(url)], [download()], [parse()], then [article.text]. *)
Variable article_service : string -> outcome string.

Definition GoogleSearch (params : dict) : M dict :=
  fun w => (search_service params, log (GoogleSearch_get_dict params) w).

Definition Article_text (url : string) : M string :=
  fun w => (article_service url, log (Article_download_parse url) w).

(** ** multi_engine_search *)

Definition default_engine : string := "google".
Definition default_location : string := "United States".
Definition default_device : string := "desktop".

(** The body of the [for result in ...] loop, [links] being the list built
    so far. *)
Fixpoint collect_links (items : list value) (links : list value)
  : outcome (list value) :=
  match items with
  | [] => Ok links
  | result :: rest =>
      obind (get result "link" VNone) (fun link =>
        collect_links rest (if truthy link then links ++ [link] else links))
  end.

Definition multi_engine_search (query engine location device : string)
  : M (list value) :=
  key <- read_SERPAPI_API_KEY ;;
  let params := search_params key query engine location device in
  results <- GoogleSearch params ;;
  first5 <- lift (slice_to (dict_get results "organic_results" (VList [])) 5) ;;
  items <- lift (iter first5) ;;
  lift (collect_links items []).

(** ** extract_web_content_from_links *)

(** One iteration of the loop: the [try] body and its [except] handler. *)
Definition extract_one (url : string) (extracted : gmap string string)
  : M (gmap string string) :=
  fun w =>
    match Article_text url w with
    | (Ok text, w') => (Ok (<[url := str_prefix 1000 text]> extracted), w')
    | (Raise e, w') =>
        (Ok (<[url := "Error extracting content: " +:+ str_exn e]> extracted), w')
    end.

Fixpoint extract_loop (urls : list string) (extracted : gmap string string)
  : M (gmap string string) :=
  match urls with
  | [] => ret extracted
  | url :: rest =>
      extracted' <- extract_one url extracted ;;
      extract_loop rest extracted'
  end.

Definition extract_web_content_from_links (urls : list string)
  : M (gmap string string) :=
  extract_loop urls ∅.

(** ** keyword_research *)

(** The comprehension [[item['value'] for item in items]]. *)
Fixpoint values_of (items : list value) : outcome (list value) :=
  match items with
  | [] => Ok []
  | item :: rest =>
      obind (getitem_key item "value") (fun v =>
      obind (values_of rest) (fun vs => Ok (v :: vs)))
  end.

(** [timeline_data[-1]['values'][i].get('value') if timeline_data else "N/A"] *)
Definition last_value_at (timeline_data : value) (i : Z) : outcome value :=
  if truthy timeline_data then
    obind (getitem_int timeline_data (-1)) (fun last =>
    obind (getitem_key last "values") (fun values =>
    obind (getitem_int values i) (fun entry =>
    get entry "value" VNone)))
  else Ok (VStr "N/A").

Definition keyword_entry (keyword score : value) : value :=
  VDict [("keyword", keyword); ("relative_popularity_score", score)].

(** [for i, keyword in enumerate(suggestions)], from index [i] on. *)
Fixpoint scored_keywords (timeline_data : value) (i : Z) (suggestions : list value)
  (keyword_data : list value) : outcome (list value) :=
  match suggestions with
  | [] => Ok keyword_data
  | keyword :: rest =>
      obind (last_value_at timeline_data i) (fun last_value =>
        scored_keywords timeline_data (i + 1) rest
          (keyword_data ++ [keyword_entry keyword last_value]))
  end.

(** [for keyword in suggestions] of the [else] branch. *)
Fixpoint unscored_keywords (suggestions : list value) (keyword_data : list value)
  : list value :=
  match suggestions with
  | [] => keyword_data
  | keyword :: rest =>
      unscored_keywords rest (keyword_data ++ [keyword_entry keyword (VStr "N/A")])
  end.

Definition no_suggestions : list value :=
  [VDict [("error", VStr "Could not fetch keyword suggestions.")]].

Definition keyword_research (topic : string) : M (list value) :=
  key <- read_SERPAPI_API_KEY ;;
  autocomplete_results <- GoogleSearch (autocomplete_params key topic) ;;
  first5 <- lift (slice_to (dict_get autocomplete_results "suggestions" (VList [])) 5) ;;
  items <- lift (iter first5) ;;
  suggestions <- lift (values_of items) ;;
  if negb (truthy (VList suggestions)) then ret no_suggestions
  else
    q <- lift (join ", " suggestions) ;;
    key' <- read_SERPAPI_API_KEY ;;
    trends_results <- GoogleSearch (trends_params key' q) ;;
    if dict_contains trends_results "interest_over_time" then
      interest <- lift (getitem_key (VDict trends_results) "interest_over_time") ;;
      timeline_data <- lift (get interest "timeline_data" (VList [])) ;;
      lift (scored_keywords timeline_data 0 suggestions [])
    else
      ret (unscored_keywords suggestions []).

End Tools.
End SearchMcp.

(* ===================================================================== *)
(** * Objects of the orchestration library and of the UI framework       *)
(* ===================================================================== *)

(** The configuration objects handed to the orchestration library. The
    library interprets them; here they are plain data. *)
Module CrewAI.

Record LLM : Type := MkLLM {
  llm_model : string;
  llm_api_key : option string;
  llm_base_url : string
}.

(** A tool object in an agent's [tools] list. *)
Inductive tool_ref : Type :=
| SerperDevTool
| RemoteTool (name : string).

Record Agent : Type := MkAgent {
  role : string;
  goal : string;
  backstory : string;
  tools : list tool_ref;
  verbose : bool;
  allow_delegation : bool;
  llm : LLM
}.

Inductive Task : Type :=
| MkTask (description expected_output : string) (agent : Agent)
         (context : list Task).

Definition description (t : Task) : string :=
  let 'MkTask d _ _ _ := t in d.
Definition expected_output (t : Task) : string :=
  let 'MkTask _ e _ _ := t in e.
Definition agent (t : Task) : Agent :=
  let 'MkTask _ _ a _ := t in a.
Definition context (t : Task) : list Task :=
  let 'MkTask _ _ _ c := t in c.

Inductive Process : Type :=
| sequential
| hierarchical.

Record Crew : Type := MkCrew {
  agents : list Agent;
  tasks : list Task;
  process : Process;
  crew_verbose : Py.value
}.

(** What [crew.kickoff()] returns: [str(result)], and the attribute
    [result.output] when the object has one. *)
Record CrewOutput : Type := MkCrewOutput {
  str_result : string;
  output_attr : option string
}.

End CrewAI.

Module Streamlit.
Import Py CrewAI.

(** An object passed to a widget: a string, or the run's result object. *)
Inductive obj : Type :=
| OStr (s : string)
| OResult (r : CrewOutput).

Record server_params_t : Type := MkServerParams {
  sp_url : string;
  sp_headers : list (string * string);
  sp_transport : string
}.

(** The [with] blocks of the two scripts. *)
Inductive ctx : Type :=
| st_container
| st_column (i : nat)
| st_spinner (text : string)
| st_sidebar
| MCPServerAdapter (params : server_params_t).

(** The calls a script makes to the UI framework and to the orchestration
    library, in the order it makes them. *)
Inductive action : Type :=
| st_set_page_config (page_title page_icon layout : string)
| st_title (body : string)
| st_header (body : string)
| st_write (body : string)
| st_markdown (body : obj) (unsafe_allow_html : bool)
| st_text_input (label placeholder help : string)
| st_columns (spec : list Z)
| st_button (label type : string)
| st_error (body : string)
| st_success (body : string)
| st_info (body : string)
| st_warning (body : string)
| st_code (body : string) (language : option string)
| st_download_button (label : string) (data : obj) (file_name mime : string)
| st_stop
| Enter (c : ctx)
| Exit (c : ctx)
| Crew_new (crew : Crew)
| Crew_kickoff (crew : Crew).

(** A piece of script: the calls it made and how it ended. *)
Definition UI (A : Type) : Type := list action * outcome A.

Definition ret {A} (a : A) : UI A := ([], Ok a).

Definition bind {A B} (m : UI A) (k : A -> UI B) : UI B :=
  match m with
  | (t, Ok a) => let '(t', r) := k a in (t ++ t', r)
  | (t, Raise e) => (t, Raise e)
  end.

Definition call (a : action) : UI unit := ([a], Ok tt).

(** [try: body  except Exception as e: handler e] *)
Definition try_except {A} (body : UI A) (handler : exn -> UI A) : UI A :=
  match body with
  | (t, Ok a) => (t, Ok a)
  | (t, Raise e) => let '(t', r) := handler e in (t ++ t', r)
  end.

(** [with c: body], for a context manager whose entry cannot fail: it is
    left when the body ends, normally or not. *)
Definition with_ {A} (c : ctx) (body : UI A) : UI A :=
  let '(t, r) := body in ([Enter c] ++ t ++ [Exit c], r).

(** [with c as x: body x], [entered] being the outcome of entering [c]. *)
Definition with_as {A B} (c : ctx) (entered : outcome A) (body : A -> UI B) : UI B :=
  match entered with
  | Ok x => with_ c (body x)
  | Raise e => ([], Raise e)
  end.

Definition trace {A} (m : UI A) : list action := fst m.

Declare Scope ui_scope.
Delimit Scope ui_scope with ui.
Notation "x <- m ;; k" := (bind m (fun x => k))
  (at level 100, m at next level, right associativity) : ui_scope.
Notation "m ;; k" := (bind m (fun _ => k))
  (at level 100, right associativity) : ui_scope.

(** [repr] of a list of strings none of which needs escaping. *)
Definition repr_str_list (l : list string) : string :=
  "[" +:+ String.concat ", " (map (fun s => squote +:+ s +:+ squote) l) +:+ "]".

End Streamlit.

(* ===================================================================== *)
(** * The direct variant: [src/app.py]                                   *)
(* ===================================================================== *)

Module DirectApp.
Import Py CrewAI Streamlit.
Local Open Scope ui_scope.

Definition researcher_goal : string :=
  "Systematically identify, validate, and synthesize the most recent, high-impact findings and developments on a given technical topic, and produce a clear, well-structured briefing with source attributions.".

Definition researcher_backstory_raw : string :=
  "
        You are a Senior Research Analyst at a leading technology think tank, renowned for your rigorous
        methodology and attention to detail. You excel at:

        • Scoping the project: defining subtopics, keywords, and questions that uncover hidden insights.  
        • Source vetting: prioritizing peer-reviewed papers, reputable industry reports, and authoritative blogs.  
        • Synthesis: distilling complex material into concise bullet points, annotated with citations and confidence levels.  
        • Collaboration: asking clarifying questions when the research scope is ambiguous or too broad.
        ".

Definition writer_goal : string :=
  "Transform research insights into an engaging, SEO-optimized blog post that communicates complex concepts to a tech-savvy audience, with a clear narrative flow.".

Definition writer_backstory_raw : string :=
  "
        You are a seasoned Tech Content Strategist and Copywriter, published across top industry outlets.
        Your strengths include:

        • Audience profiling: adapting tone, terminology, and depth for developers, researchers, or decision-makers.  
        • Storytelling: crafting a compelling introduction, logical progression of ideas, and memorable takeaways.  
        • SEO best practices: integrating keywords naturally, writing persuasive headings, and optimizing for readability.  
        • Revision: incorporating feedback, refining clarity, and ensuring factual accuracy via collaboration with the researcher.
        ".

Definition research_task_description (topic : string) : string :=
  "Conduct a structured, in-depth exploration of “" +:+ topic +:+ "”:
1. Define key subtopics and research questions.
2. Source and vet high-quality materials (peer-reviewed papers, industry reports, authoritative blogs).
3. Synthesize findings into concise bullet points with source citations and confidence annotations.
4. Highlight emerging trends, breakthrough technologies, leading experts, and potential industry impacts.".

Definition research_task_expected_output : string :=
  "A comprehensive research briefing: a bullet-point summary with clear source attributions and confidence ratings.".

Definition writing_task_description (topic : string) : string :=
  "Using the research briefing on “" +:+ topic +:+ "”, craft an engaging, SEO-optimized blog post:
1. Create a compelling title (use `#`).
2. Organize content with section headers (use `##`) for Introduction, Body, and Conclusion.
3. Maintain a logical narrative flow and approachable, human tone.
4. Explain any technical terms and avoid unexplained jargon.
5. Use bullet points to clarify lists.
6. Emphasize key insights with **bold** text.
7. Output strictly as Markdown (no code blocks or triple backticks).".

Definition writing_task_expected_output : string :=
  "A well-crafted Markdown blog post (4–6 paragraphs) with title, headings, bullet points, and emphasis.".

Definition how_it_works : string :=
  "
                
    1. 🔍 **Researcher Agent**  
       - Defines subtopics and research questions  
       - Sources and vets high-quality materials  
       - Synthesizes findings into concise, cited bullet points  
       
    2. ✍️ **Writer Agent**  
       - Crafts an SEO-optimized title and headings  
       - Converts research into a human-friendly narrative  
       - Emphasizes key insights with **bold** text  
       - Outputs clean Markdown (no code blocks)  
    ".

Section App.

(** [os.getenv("CLARIFAI_API")] *)
Variable CLARIFAI_API : option string.

(** [crew.kickoff()], performed by the orchestration library. *)
Variable kickoff : Crew -> outcome CrewOutput.

Definition clarifai_llm : LLM :=
  MkLLM "openai/gcp/generate/models/gemini-2_5-pro" CLARIFAI_API
        "https://api.clarifai.com/v2/ext/openai/v1".

Definition search_tool : tool_ref := SerperDevTool.

Definition researcher : Agent :=
  MkAgent "Senior Research Analyst" researcher_goal
          (strip researcher_backstory_raw) [search_tool] true false clarifai_llm.

Definition writer : Agent :=
  MkAgent "Tech Content Strategist & Copywriter" writer_goal
          (strip writer_backstory_raw) [] true true clarifai_llm.

Definition create_tasks (topic : string) : Task * Task :=
  let research_task :=
    MkTask (research_task_description topic) research_task_expected_output
           researcher [] in
  let writing_task :=
    MkTask (writing_task_description topic) writing_task_expected_output
           writer [research_task] in
  (research_task, writing_task).

Definition make_crew (topic : string) : Crew :=
  let '(research_task, writing_task) := create_tasks topic in
  MkCrew [researcher; writer] [research_task; writing_task] sequential
         (VBool true).

Definition run_blog_generation (topic : string) : UI CrewOutput :=
  let crew := make_crew topic in
  call (Crew_new crew) ;;
  ([Crew_kickoff crew], kickoff crew).

(** The [if generate_button:] block of [main]. *)
Definition on_generate (topic : string) : UI unit :=
  if String.eqb (strip topic) "" then
    call (st_error "Please enter a topic for the blog post.")
  else
    with_ (st_spinner ("AI agents are working on: '" +:+ topic +:+ "'..."))
      (try_except
         (result <- run_blog_generation topic ;;
          call (st_success "Blog post generated successfully!") ;;
          call (st_markdown (OResult result) false) ;;
          call (st_download_button "Download Blog Post" (OResult result)
                  (replace_char " " "_" topic +:+ "_blog_post.md")
                  "text/markdown"))
         (fun e => call (st_error ("And error occurred: " +:+ str_exn e)))).

Definition sidebar : UI unit :=
  with_ st_sidebar
    (call (st_header "Information") ;;
     call (st_markdown (OStr "**Environment Variables Required:**") false) ;;
     call (st_code "CLARIFAI_PAT=your_clarifai_personal_access_token" None) ;;
     call (st_code "SERPER_API_KEY=your_serper_dev_api_key" None) ;;
     call (st_markdown (OStr "**Current Configuration:**") false) ;;
     call (st_markdown (OStr "- **Model:** `gcp/generate/models/gemini-2_5-pro`") false) ;;
     call (st_markdown (OStr "- **API Base:** `api.clarifai.com`") false) ;;
     call (st_markdown (OStr "**Features:**") false) ;;
     call (st_markdown (OStr "- Real-time web research") false) ;;
     call (st_markdown (OStr "- AI-powered content writing") false) ;;
     call (st_markdown (OStr "- Markdown formatted output") false) ;;
     call (st_markdown (OStr "- Download capability") false) ;;
     call (st_warning "⚠️ Keep your API keys secure and never commit them to version control.")).

(** The statements of [main] up to the button. *)
Definition page_top : UI unit :=
  call (st_set_page_config "AI Blog Writer" ":robot:" "centered") ;;
  call (st_markdown (OStr "_Powered by Clarifai Gemini 2.5 Pro & CrewAI Agents_") false) ;;
  call (st_write "---") ;;
  call (st_header "How It Works") ;;
  call (st_markdown (OStr how_it_works) false) ;;
  call (st_write "---") ;;
  with_ st_container
    (call (st_text_input "Enter you blog topic:"
             "e.g., 'e.g., Advances in Robotic Vision'"
             "Be specific for better results") ;;
     call (st_columns [1; 4]) ;;
     with_ (st_column 0) (call (st_button "Generate Blog" "primary"))).

(** [main()]: [topic] is what the text input returns and [generate_button]
    what the button returns on this run of the script. *)
Definition main (topic : string) (generate_button : bool) : UI unit :=
  page_top ;;
  (if generate_button then on_generate topic else ret tt) ;;
  sidebar.

End App.
End DirectApp.

(* ===================================================================== *)
(** * The remote-tool variant: [src/mcp/app.py]                          *)
(* ===================================================================== *)

Module McpApp.
Import Py CrewAI Streamlit.
Local Open Scope ui_scope.

Definition USER_ID : string := "nperla".
Definition APP_ID : string := "mcp-examples".
Definition MODEL_ID : string := "blog_writing_search_mcp".

Definition banner : string :=
  "<h2 style='text-align: center; color: #2E86C1;'><strong>Powered by Clarifai, CrewAI & a Custom SerpAPI MCP Server</strong></h2>".

Definition how_it_works : string :=
  "
    **How it works:**
    - ✅ **Planner Agent**: Researches top articles and extracts SEO keywords.
    - ✍️ **Writer Agent**: Writes a full blog post using the research and outline.
    - 🔎 **Editor Agent**: Polishes the final post and formats it in markdown.
    ".

Definition plan_task_description (topic : string) : string :=
  "
                                For the topic " +:+ dquote +:+ topic +:+ dquote +:+ ":

                                1. Use `multi_engine_search` to find 5 recent, relevant articles.
                                2. Extract content using `extract_web_content_from_links`.
                                3. Use `keyword_research` to find SEO keywords.
                                4. Summarize key findings and generate a structured outline.

                                The outline should include:
                                - Title
                                - Introduction
                                - 3-4 section headings with bullet points
                                - Conclusion
                                ".

Definition write_task_description (topic : string) : string :=
  "
                                Using the outline and research for " +:+ dquote +:+ topic +:+ dquote +:+ ", write a complete blog post with:

                                - At least 5–6 paragraphs
                                - Natural integration of SEO keywords
                                - Engaging and informative tone
                                - Clean markdown format

                                Use examples and factual support where possible.
                                ".

Definition edit_task_description (topic : string) : string :=
  "
                                Edit the blog post for " +:+ dquote +:+ topic +:+ dquote +:+ ":

                                - Fix grammar and clarity issues
                                - Enhance tone, transitions, and flow
                                - Ensure SEO keywords are present naturally
                                - Format properly in markdown:
                                    - Use `#` for title
                                    - `##` for section headers
                                    - Paragraph spacing and bullet points
                                    - Bold key phrases if needed

                                Return the final polished markdown content.
                                ".

Section App.

(** [os.getenv("CLARIFAI_PAT")], known to be set once the guards at the top
    of the script are passed. *)
Variable CLARIFAI_PAT : string.

(** Entering [MCPServerAdapter(server_params)]: the names of the tools the
    server offers, or the exception of a failed connection. *)
Variable connect : server_params_t -> outcome (list string).

(** [crew.kickoff()], performed by the orchestration library. *)
Variable kickoff : Crew -> outcome CrewOutput.

Definition clarifai_llm : LLM :=
  MkLLM "openai/openai/chat-completion/models/gpt-4o" (Some CLARIFAI_PAT)
        "https://api.clarifai.com/v2/ext/openai/v1".

Definition server_params : server_params_t :=
  MkServerParams
    ("https://api.clarifai.com/v2/ext/mcp/v1/users/" +:+ USER_ID +:+ "/apps/"
       +:+ APP_ID +:+ "/models/" +:+ MODEL_ID)
    [("Authorization", "Bearer " +:+ CLARIFAI_PAT)]
    "streamable-http".

Definition planner (mcp_tools : list string) : Agent :=
  MkAgent "SEO Researcher and Content Planner"
          "Extract key insights, find SEO keywords, and outline the blog."
          "You research top articles and produce outlines optimized for engagement and SEO."
          (map RemoteTool mcp_tools) true false clarifai_llm.

Definition writer : Agent :=
  MkAgent "Blog Post Writer"
          "Create a detailed, high-quality blog post using the research and outline."
          "You are a writer who specializes in transforming outlines into compelling blog posts."
          [] true false clarifai_llm.

Definition editor : Agent :=
  MkAgent "Blog Editor and Formatter"
          "Edit the blog post, correct grammar, and format it in markdown."
          "You ensure every blog is well-written, polished, and correctly formatted for publishing."
          [] true false clarifai_llm.

Definition plan_task (mcp_tools : list string) (topic : string) : Task :=
  MkTask (plan_task_description topic)
         "A blog outline with insights, 5-10 SEO keywords, and detailed structure."
         (planner mcp_tools) [].

Definition write_task (mcp_tools : list string) (topic : string) : Task :=
  MkTask (write_task_description topic)
         "Full markdown blog post draft, ready for editing."
         writer [plan_task mcp_tools topic].

Definition edit_task (mcp_tools : list string) (topic : string) : Task :=
  MkTask (edit_task_description topic)
         "Final markdown blog post, ready for publishing."
         editor [write_task mcp_tools topic].

Definition make_crew (mcp_tools : list string) (topic : string) : Crew :=
  MkCrew [planner mcp_tools; writer; editor]
         [plan_task mcp_tools topic; write_task mcp_tools topic;
          edit_task mcp_tools topic]
         sequential (VInt 1).

(** [result.output if hasattr(result, "output") else str(result)] *)
Definition final_output_of (result : CrewOutput) : string :=
  match output_attr result with
  | Some o => o
  | None => str_result result
  end.

(** The body of the [with MCPServerAdapter(...) as mcp_tools:] block. *)
Definition generate_with (topic : string) (mcp_tools : list string) : UI unit :=
  call (st_info ("✅ Connected to MCP Server. Tools: " +:+ repr_str_list mcp_tools)) ;;
  let crew := make_crew mcp_tools topic in
  call (Crew_new crew) ;;
  result <- ([Crew_kickoff crew], kickoff crew) ;;
  let final_output := final_output_of result in
  call (st_success "✅ Blog post generated successfully!") ;;
  call (st_markdown (OStr "---") false) ;;
  call (st_markdown (OStr final_output) false) ;;
  call (st_download_button "📥 Download as Markdown" (OStr final_output)
          (lower (replace_char " " "_" topic) +:+ "_blog.md")
          "text/markdown").

(** The [if generate_button:] block of [main]. *)
Definition on_generate (topic : string) : UI unit :=
  if String.eqb (strip topic) "" then
    call (st_error "Please enter a topic for the blog post.")
  else
    with_ (st_spinner ("Running agents on: '" +:+ topic +:+ "'..."))
      (try_except
         (with_as (MCPServerAdapter server_params) (connect server_params)
            (generate_with topic))
         (fun e => call (st_error ("An error occurred: " +:+ str_exn e)))).

Definition sidebar : UI unit :=
  with_ st_sidebar
    (call (st_header "⚙️ Configuration") ;;
     call (st_markdown (OStr "**MCP Server:**") false) ;;
     call (st_code ("USER_ID: " +:+ USER_ID +:+ "
APP_ID: " +:+ APP_ID +:+ "
MODEL_ID: " +:+ MODEL_ID) (Some "text")) ;;
     call (st_markdown (OStr "**LLM Config:**") false) ;;
     call (st_markdown (OStr "- Model: `gpt-4o` via Clarifai") false) ;;
     call (st_markdown (OStr "- Base URL: `https://api.clarifai.com`") false) ;;
     call (st_header "🛠️ Features") ;;
     call (st_markdown (OStr "- Research via search + content extraction") false) ;;
     call (st_markdown (OStr "- Keyword generation for SEO") false) ;;
     call (st_markdown (OStr "- Plan → Write → Edit flow with agents") false) ;;
     call (st_warning "⚠️ Keep your API keys secure. Ensure the MCP server is live on Clarifai.")).

(** The statements of [main] up to the button. *)
Definition page_top : UI unit :=
  call (st_set_page_config "AI Blog Writing Agent" "📝" "wide") ;;
  call (st_title "📝 AI Blog Writing Agent") ;;
  call (st_markdown (OStr banner) true) ;;
  call (st_markdown (OStr how_it_works) false) ;;
  call (st_text_input "Enter your blog topic:"
          "e.g., The Future of Quantum Computing"
          "Be specific for better results") ;;
  call (st_button "🚀 Generate Blog" "primary").

(** [main()]: [topic] is what the text input returns and [generate_button]
    what the button returns on this run of the script. *)
Definition main (topic : string) (generate_button : bool) : UI unit :=
  page_top ;;
  (if generate_button then on_generate topic else ret tt) ;;
  sidebar.

End App.

(** The script from its first line: the two guards on the environment, then
    [main()]. [st.stop()] ends the run. *)
Definition script (CLARIFAI_PAT SERPER_API_KEY : option string)
  (connect : server_params_t -> outcome (list string))
  (kickoff : Crew -> outcome CrewOutput)
  (topic : string) (generate_button : bool) : UI unit :=
  match CLARIFAI_PAT with
  | Some pat =>
      if String.eqb pat "" then
        call (st_error "Please set CLARIFAI_PAT environment variable") ;;
        call st_stop
      else
        match SERPER_API_KEY with
        | Some key =>
            if String.eqb key "" then
              call (st_error "Please set SERPER_API_KEY environment variable") ;;
              call st_stop
            else main pat connect kickoff topic generate_button
        | None =>
            call (st_error "Please set SERPER_API_KEY environment variable") ;;
            call st_stop
        end
  | None =>
      call (st_error "Please set CLARIFAI_PAT environment variable") ;;
      call st_stop
  end.

End McpApp.

(* ===================================================================== *)
(** * The test client: [src/mcp/search_mcp/client.py]                    *)
(* ===================================================================== *)

Module SearchMcpClient.
Import Py.

(** A piece of printed text: a literal, or an object formatted by an
    f-string (that is, by [str]). *)
Inductive piece : Type :=
| Lit (s : string)
| Fmt (v : value).

Record transport_t : Type := MkTransport {
  transport_url : string;
  transport_headers : list (string * string)
}.

(** What the script does, in order: what it prints and what it asks of the
    client library. *)
Inductive event : Type :=
| Print (text : list piece)
| Client_enter (t : transport_t)
| Client_exit
| Client_list_tools
| Client_call_tool (name : string) (arguments : dict).

Definition IO (A : Type) : Type := list event * outcome A.

Definition ret {A} (a : A) : IO A := ([], Ok a).

Definition bind {A B} (m : IO A) (k : A -> IO B) : IO B :=
  match m with
  | (t, Ok a) => let '(t', r) := k a in (t ++ t', r)
  | (t, Raise e) => (t, Raise e)
  end.

Definition emit (ev : event) : IO unit := ([ev], Ok tt).

(** [print(s)] for a literal [s] *)
Definition print (s : string) : IO unit := emit (Print [Lit s]).

(** [try: body  except Exception as e: handler e] *)
Definition try_except {A} (body : IO A) (handler : exn -> IO A) : IO A :=
  match body with
  | (t, Ok a) => (t, Ok a)
  | (t, Raise e) => let '(t', r) := handler e in (t ++ t', r)
  end.

Declare Scope io_scope.
Delimit Scope io_scope with io.
Notation "x <- m ;; k" := (bind m (fun x => k))
  (at level 100, m at next level, right associativity) : io_scope.
Notation "m ;; k" := (bind m (fun _ => k))
  (at level 100, right associativity) : io_scope.
Local Open Scope io_scope.

Definition url : string :=
  "https://api.clarifai.com/v2/ext/mcp/v1/users/nperla/apps/mcp-examples/models/blog_writing_search_mcp".

(** The module-level [transport]; [PAT] is [os.environ.get("CLARIFAI_PAT")],
    and [str + None] raises. *)
Definition transport (PAT : option string) : outcome transport_t :=
  match PAT with
  | Some pat => Ok (MkTransport url [("Authorization", "Bearer " +:+ pat)])
  | None =>
      Raise (TypeError ("can only concatenate str (not " +:+ dquote +:+ "NoneType"
                          +:+ dquote +:+ ") to str"))
  end.

(** [s * n] *)
Fixpoint repeat_str (s : string) (n : nat) : string :=
  match n with
  | O => ""
  | S n' => s +:+ repeat_str s n'
  end.

Definition separator : string :=
  String "010"%char "" +:+ repeat_str "=" 50 +:+ String "010"%char "".

Definition search_arguments : dict :=
  [("query", VStr "AI in healthcare"); ("engine", VStr "google");
   ("location", VStr "United States")].

Definition links : list value :=
  [VStr "https://pmc.ncbi.nlm.nih.gov/articles/PMC8285156/";
   VStr "https://www.foreseemed.com/artificial-intelligence-in-healthcare";
   VStr "https://news.harvard.edu/gazette/story/2025/03/how-ai-is-transforming-medicine-healthcare/"].

Section Client.

(** Entering [Client(transport=transport)]. *)
Variable connect : transport_t -> outcome unit.

(** [await client.list_tools()]: the name and the description of each tool. *)
Variable list_tools : outcome (list (string * value)).

(** [json.loads((await client.call_tool(name, arguments))[0].text)]: the
    parsed reply, or the exception of any of these steps. *)
Variable call_tool : string -> dict -> outcome value.

Definition call (name : string) (arguments : dict) : IO value :=
  ([Client_call_tool name arguments], call_tool name arguments).

Fixpoint print_tools (tools : list (string * value)) : IO unit :=
  match tools with
  | [] => ret tt
  | (name, description) :: rest =>
      emit (Print [Lit "- "; Lit name; Lit ": "; Fmt description]) ;;
      print_tools rest
  end.

Fixpoint print_links (response_data : list value) : IO unit :=
  match response_data with
  | [] => ret tt
  | link :: rest => emit (Print [Lit "- "; Fmt link]) ;; print_links rest
  end.

(** [for url, content in response_data.items()] *)
Fixpoint print_contents (items : list (string * value)) : IO unit :=
  match items with
  | [] => ret tt
  | (u, content) :: rest =>
      shown <- ([], slice_to content 500) ;;
      emit (Print [Lit (String "010"%char "URL: "); Lit u;
                   Lit (String "010"%char "Extracted Content (first 500 chars):"
                          +:+ String "010"%char "");
                   Fmt shown]) ;;
      print_contents rest
  end.

(** [response_data.items()] *)
Definition items (v : value) : outcome (list (string * value)) :=
  match v with
  | VDict d => Ok d
  | _ => Raise (AttributeError v "items")
  end.

Fixpoint print_keywords (entries : list value) : IO unit :=
  match entries with
  | [] => ret tt
  | item :: rest =>
      keyword <- ([], get item "keyword" VNone) ;;
      score <- ([], get item "relative_popularity_score" VNone) ;;
      emit (Print [Lit "- Keyword: "; Fmt keyword; Lit ", Popularity: "; Fmt score]) ;;
      print_keywords rest
  end.

Definition test_multi_engine_search : IO unit :=
  print "Testing: multi_engine_search..." ;;
  try_except
    (response_data <- call "multi_engine_search" search_arguments ;;
     match response_data with
     | VList l => print "Top 5 links:" ;; print_links l
     | _ => print "Unexpected response format: not a list"
     end)
    (fun e => emit (Print [Lit "Error calling multi_engine_search: "; Lit (str_exn e)])).

Definition test_extract : IO unit :=
  print "Testing: extract_web_content_from_links..." ;;
  try_except
    (response_data <- call "extract_web_content_from_links" [("urls", VList links)] ;;
     pairs <- ([], items response_data) ;;
     print_contents pairs)
    (fun e => emit (Print [Lit "Error: "; Lit (str_exn e)])).

Definition test_keyword_research : IO unit :=
  print "Testing: keyword_research..." ;;
  try_except
    (response_data <- call "keyword_research" [("topic", VStr "home automation")] ;;
     print "Keyword research results:" ;;
     entries <- ([], iter response_data) ;;
     print_keywords entries)
    (fun e => emit (Print [Lit "Error: "; Lit (str_exn e)])).

(** The [async with] block: [true] when the tools were listed, [false] when
    the [except] branch returned from [main]. *)
Definition listing (t : transport_t) : IO bool :=
  match connect t with
  | Raise e => ([], Raise e)
  | Ok _ =>
      let '(tr, r) :=
        print "Available Tools: " ;;
        try_except
          (tools <- ([Client_list_tools], list_tools) ;;
           print_tools tools ;;
           ret true)
          (fun e =>
             emit (Print [Lit "Error listing tools: "; Lit (str_exn e)]) ;;
             ret false)
      in ([Client_enter t] ++ tr ++ [Client_exit], r)
  end.

(** [main()], awaited to its end. *)
Definition main (t : transport_t) : IO unit :=
  print ("=== SerpAPI MCP Server ===" +:+ String "010"%char "") ;;
  listed <- listing t ;;
  if listed : bool then
    test_multi_engine_search ;;
    print separator ;;
    test_extract ;;
    print separator ;;
    test_keyword_research
  else ret tt.

End Client.

(** The script: the module-level statements, then [asyncio.run(main())]. *)
Definition script (PAT : option string) (connect : transport_t -> outcome unit)
  (list_tools : outcome (list (string * value)))
  (call_tool : string -> dict -> outcome value) : IO unit :=
  match transport PAT with
  | Ok t => main connect list_tools call_tool t
  | Raise e => ([], Raise e)
  end.

End SearchMcpClient.

(* ===================================================================== *)
(** * The set-up script: [src/mcp/create_app.py]                         *)
(* ===================================================================== *)

Module CreateApp.
Import Py.

Inductive event : Type :=
| User_new (user_id : string) (pat : string)
| User_create_app (app_id base_workflow : string)
| Print (text : string).

(** [needle in s] on strings *)
Fixpoint str_contains (needle s : string) : bool :=
  String.prefix needle s
  || match s with
     | EmptyString => false
     | String _ s' => str_contains needle s'
     end.

(** The [assert] of the script (assertions enabled). *)
Definition pat_accepted (CLARIFAI_PAT : option string) : bool :=
  match CLARIFAI_PAT with
  | Some pat => negb (String.eqb pat "") && negb (str_contains "YOUR_CLARIFAI_PAT" pat)
  | None => false
  end.

Definition AssertionError (msg : string) : exn := Exception "AssertionError" msg.

(** The whole script; [create_app] is [client.create_app(...)], giving the
    [id] of the application. *)
Definition script (CLARIFAI_PAT : option string)
  (create_app : string -> string -> outcome string) : list event * outcome unit :=
  match CLARIFAI_PAT with
  | Some pat =>
      if pat_accepted CLARIFAI_PAT then
        match create_app "mcp-examples" "General" with
        | Ok app_id =>
            ([User_new "nperla" pat; User_create_app "mcp-examples" "General";
              Print ("✅ Created app: " +:+ app_id)], Ok tt)
        | Raise e =>
            ([User_new "nperla" pat; User_create_app "mcp-examples" "General"],
             Raise e)
        end
      else ([], Raise (AssertionError ("PAT issue: " +:+ pat)))
  | None => ([], Raise (AssertionError "PAT issue: None"))
  end.

End CreateApp.

(* ===================================================================== *)
(** * The statements to be checked, in the specification's words         *)
(* ===================================================================== *)

Module Claims.
Import Py SearchMcp CrewAI Streamlit.

(** ** The search tool *)

(** An object is empty when Python takes it for false: [None], [False],
    [0], the empty string, list and dict. *)
Definition empty (v : value) : bool := negb (truthy v).

(** The ['link'] of an entry, unless it is missing or empty. *)
Definition link_of (entry : value) : option value :=
  match entry with
  | VDict d =>
      match dict_lookup d "link" with
      | Some v => if empty v then None else Some v
      | None => None
      end
  | _ => None
  end.

(** The ['link'] values of the first five entries of ['organic_results'], in
    order, without the entries whose ['link'] is missing or empty. *)
Definition first_five_links (response : dict) : list value :=
  match dict_lookup response "organic_results" with
  | Some (VList entries) => omap link_of (firstn 5 entries)
  | _ => []
  end.

Definition is_dict (v : value) : bool :=
  match v with VDict _ => true | _ => false end.

Definition is_str (v : value) : bool :=
  match v with VStr _ => true | _ => false end.

(** A response of the search API's type: ['organic_results'], when there, is
    an array of objects. *)
Definition search_response (response : dict) : bool :=
  match dict_lookup response "organic_results" with
  | None => true
  | Some (VList entries) => forallb is_dict entries
  | Some _ => false
  end.

(** ** The extraction tool *)

(** What is kept for a URL: at most the first 1000 characters of the text
    when the download and the parse succeed, the error text otherwise. *)
Definition stored (o : outcome string) : string :=
  match o with
  | Ok text => str_prefix 1000 text
  | Raise e => "Error extracting content: " +:+ str_exn e
  end.

(** ** The keyword tool *)

(** An autocomplete response of the service's type: ['suggestions'], when
    there, is an array of objects whose ['value'] is a string. *)
Definition suggestion (v : value) : bool :=
  match v with
  | VDict d => match dict_lookup d "value" with Some (VStr _) => true | _ => false end
  | _ => false
  end.

Definition autocomplete_response (response : dict) : bool :=
  match dict_lookup response "suggestions" with
  | None => true
  | Some (VList items) => forallb suggestion items
  | Some _ => false
  end.




(** The requests one call of [keyword_research] sends: the autocomplete
    query, then possibly one trends query. *)
Definition keyword_requests (key : value) (topic : string) (sent : list request)
  : Prop :=
  sent = [GoogleSearch_get_dict (autocomplete_params key topic)]
  \/ exists q, sent = [GoogleSearch_get_dict (autocomplete_params key topic);
                       GoogleSearch_get_dict (trends_params key q)].


(** ** What a run of the UI script did *)

(** The crews constructed, the crews kicked off and the tool servers
    contacted in a trace. *)
Definition starts_run (a : action) : bool :=
  match a with
  | Crew_new _ | Crew_kickoff _ | Enter (MCPServerAdapter _) => true
  | _ => false
  end.

Definition kicked_off (t : list action) : list Crew :=
  omap (fun a => match a with Crew_kickoff c => Some c | _ => None end) t.

(** Every task after the first has exactly the task before it as context. *)
Fixpoint chained (ts : list Task) : Prop :=
  match ts with
  | t :: ((t' :: _) as rest) => context t' = [t] /\ chained rest
  | _ => True
  end.

(** ** What the topic may influence *)

Fixpoint without_description (t : Task) : Task :=
  match t with
  | MkTask _ e a c => MkTask "" e a (map without_description c)
  end.

Definition without_descriptions (c : Crew) : Crew :=
  MkCrew (agents c) (map without_description (tasks c)) (process c)
         (crew_verbose c).

(** An action with the task descriptions and the download's file name
    blanked. *)
Definition modulo_descriptions_and_file_name (a : action) : action :=
  match a with
  | Crew_new c => Crew_new (without_descriptions c)
  | Crew_kickoff c => Crew_kickoff (without_descriptions c)
  | st_download_button l d _ m => st_download_button l d "" m
  | _ => a
  end.

(** An action with the spinner's text blanked. *)
Definition modulo_spinner (a : action) : action :=
  match a with
  | Enter (st_spinner _) => Enter (st_spinner "")
  | Exit (st_spinner _) => Exit (st_spinner "")
  | _ => a
  end.

End Claims.

(* ===================================================================== *)
(** * Concrete inputs used below                                         *)
(* ===================================================================== *)

Module Samples.
Import Py SearchMcp CrewAI Streamlit.

Definition sample_search_response : dict :=
  [("organic_results",
    VList [VDict [("link", VStr "https://a.example/1")];
           VDict [("title", VStr "no link")];
           VDict [("link", VStr "")];
           VDict [("link", VStr "https://a.example/4")];
           VDict [("link", VStr "https://a.example/5")];
           VDict [("link", VStr "https://a.example/6")]])].

Definition sample_world : world :=
  World (module_init (fun _ => VStr "key")) [].

(** The same globals after some earlier call. *)
Definition sample_later_world : world :=
  World (module_init (fun _ => VStr "key"))
        [Article_download_parse "https://a.example/1"].



Definition full_trends_service (params : dict) : outcome dict :=
  match dict_lookup params "engine" with
  | Some (VStr "google_autocomplete") =>
      Ok [("suggestions",
           VList [VDict [("value", VStr "home automation ideas")];
                  VDict [("value", VStr "home automation hub")]])]
  | _ =>
      Ok [("interest_over_time",
           VDict [("timeline_data",
                   VList [VDict [("values",
                                  VList [VDict [("query", VStr "home automation ideas");
                                                ("value", VStr "57")];
                                         VDict [("query", VStr "home automation hub");
                                                ("value", VStr "12")]])]])])]
  end.

Definition sample_values : list value :=
  [VDict [("query", VStr "home automation ideas"); ("value", VStr "57")];
   VDict [("query", VStr "home automation hub"); ("value", VStr "12")]].

Definition sample_timeline : list value := [VDict [("values", VList sample_values)]].

(** A search service whose trends answer has an empty timeline. *)
Definition unanswered_trends_service (params : dict) : outcome dict :=
  match dict_lookup params "engine" with
  | Some (VStr "google_autocomplete") =>
      Ok [("suggestions",
           VList [VDict [("value", VStr "home automation ideas")];
                  VDict [("value", VStr "home automation hub")]])]
  | _ => Ok [("interest_over_time", VDict [("timeline_data", VList [])])]
  end.

(** A runtime that returns the same post for every crew, and an adapter
    that offers the server's three tools. *)
Definition sample_kickoff (crew : Crew) : outcome CrewOutput :=
  Ok (MkCrewOutput "# A post" None).

Definition sample_connect (params : server_params_t) : outcome (list string) :=
  Ok ["multi_engine_search"; "extract_web_content_from_links"; "keyword_research"].

(** A runtime and an extractor that fail. *)
Definition failing_kickoff (crew : Crew) : outcome CrewOutput :=
  Raise (Exception "RuntimeError" "rate limit").

Definition failing_article (url : string) : outcome string :=
  Raise (Exception "ArticleException" "download failed").

End Samples.

(* ===================================================================== *)
(** * Further notions used to describe the code                          *)
(* ===================================================================== *)

Module Properties.
Import Py SearchMcp CrewAI Streamlit.

(** ** The keyword tool *)

(** The strings [keyword_research] keeps as suggestions. *)
Definition suggestion_strings (response : dict) : list string :=
  match dict_lookup response "suggestions" with
  | Some (VList items) =>
      omap (fun v => match v with
                     | VDict d => match dict_lookup d "value" with
                                  | Some (VStr s) => Some s
                                  | _ => None
                                  end
                     | _ => None
                     end)
           (firstn 5 items)
  | _ => []
  end.

(** [entry.get('value')] of an element of a ['values'] array. *)
Definition value_of (entry : value) : value :=
  match entry with
  | VDict d => dict_get d "value" VNone
  | _ => VNone
  end.

(** The ['api_key'] a request carries. *)
Definition api_key_of (r : request) : option value :=
  match r with
  | GoogleSearch_get_dict params => dict_lookup params "api_key"
  | Article_download_parse _ => None
  end.

(** ** The pages *)




(** An environment variable that is set to a non-empty string. *)
Definition is_set (v : option string) : bool :=
  match v with
  | Some s => negb (String.eqb s "")
  | None => false
  end.

Definition draws_input (a : action) : bool :=
  match a with st_text_input _ _ _ | st_button _ _ => true | _ => false end.

(** ** The test client *)

(** The requests made through the client, each with [true] when it is made
    inside the [async with] block and [false] when it is made outside;
    [inside] tells where the trace starts. *)
Fixpoint client_requests (inside : bool) (t : list SearchMcpClient.event)
  : list (bool * string) :=
  match t with
  | [] => []
  | SearchMcpClient.Client_enter _ :: t' => client_requests true t'
  | SearchMcpClient.Client_exit :: t' => client_requests false t'
  | SearchMcpClient.Client_list_tools :: t' =>
      (inside, "list_tools") :: client_requests inside t'
  | SearchMcpClient.Client_call_tool name _ :: t' =>
      (inside, name) :: client_requests inside t'
  | SearchMcpClient.Print _ :: t' => client_requests inside t'
  end.

Definition printed (t : list SearchMcpClient.event) : list (list SearchMcpClient.piece) :=
  omap (fun ev => match ev with SearchMcpClient.Print text => Some text | _ => None end) t.

Definition trace_of {A} (m : SearchMcpClient.IO A) : list SearchMcpClient.event :=
  fst m.

End Properties.

(* ===================================================================== *)
(** * Facts about the Python operations                                  *)
(* ===================================================================== *)

Module PyFacts.
Import Py.



Lemma startswith_append p s : startswith p (p +:+ s) = true.
Proof.
  unfold startswith. induction p as [|c p IH].
  - change ("" +:+ s) with s. destruct s; reflexivity.
  - change (String c p +:+ s) with (String c (p +:+ s)). simpl.
    destruct (ascii_dec c c) as [_|Hne]; [exact IH | congruence].
Qed.

Lemma lstrip_spaces s : all_chars isspace s = true -> lstrip s = "".
Proof.
  induction s as [|c s IH]; simpl; [reflexivity|].
  intros [Hc Hs]%andb_prop. rewrite Hc. auto.
Qed.

Lemma strip_spaces s : all_chars isspace s = true -> strip s = "".
Proof. intros H. unfold strip. rewrite lstrip_spaces by exact H. reflexivity. Qed.

Lemma rstrip_empty s : rstrip s = "" -> all_chars isspace s = true.
Proof.
  induction s as [|c s IH]; simpl; [reflexivity|].
  destruct (rstrip s) eqn:E; [|discriminate].
  destruct (isspace c); [intros _; simpl; auto | discriminate].
Qed.

Lemma lstrip_all_chars s :
  all_chars isspace (lstrip s) = true -> all_chars isspace s = true.
Proof.
  induction s as [|c s IH]; simpl; [reflexivity|].
  destruct (isspace c) eqn:E; simpl.
  - exact IH.
  - rewrite E. discriminate.
Qed.

(** [not s.strip()] holds exactly for the strings made of white space. *)
Lemma strip_empty_iff s : strip s = "" <-> all_chars isspace s = true.
Proof.
  split; [|apply strip_spaces].
  intros H. apply lstrip_all_chars, rstrip_empty, H.
Qed.





Lemma all_chars_impl (p q : ascii -> bool) s :
  (forall c, p c = true -> q c = true) ->
  all_chars p s = true -> all_chars q s = true.
Proof.
  intros Hpq. induction s as [|c s IH]; simpl; [reflexivity|].
  intros [Hc Hs]%andb_prop. rewrite (Hpq _ Hc), IH by exact Hs. reflexivity.
Qed.


End PyFacts.

(* ===================================================================== *)
(** * The tool server                                                    *)
(* ===================================================================== *)

Module SearchMcpFacts.
Import Py SearchMcp Claims Samples PyFacts.

(** Unfolds the monadic plumbing of one tool call. *)
Ltac run_tool :=
  unfold multi_engine_search, keyword_research, extract_web_content_from_links,
    bind, lift, ret, read_SERPAPI_API_KEY, GoogleSearch, Article_text, log;
  simpl.

(** ** multi_engine_search *)

Lemma collect_links_dicts items links :
  forallb is_dict items = true ->
  collect_links items links = Ok (links ++ omap link_of items).
Proof.
  revert links. induction items as [|entry items IH]; intros links Hd; csimpl.
  - now rewrite app_nil_r.
  - apply andb_prop in Hd as [He Hd].
    destruct entry as [| | | | |d]; try discriminate. csimpl.
    unfold dict_get, empty.
    destruct (dict_lookup d "link") as [v|]; csimpl.
    + destruct (truthy v); csimpl; rewrite IH by exact Hd;
        [now rewrite <- app_assoc | reflexivity].
    + now rewrite IH by exact Hd.
Qed.

Lemma forallb_firstn {A} (p : A -> bool) n (l : list A) :
  forallb p l = true -> forallb p (firstn n l) = true.
Proof.
  revert l. induction n as [|n IH]; intros [|a l]; simpl; auto.
  intros [Ha Hl]%andb_prop. rewrite Ha. simpl. auto.
Qed.

Lemma length_omap_le {A B} (f : A -> option B) (l : list A) :
  (length (omap f l) <= length l)%nat.
Proof.
  induction l as [|a l IH]; csimpl; [lia|].
  destruct (f a); csimpl; lia.
Qed.

Lemma first_five_links_le response : (length (first_five_links response) <= 5)%nat.
Proof.
  unfold first_five_links.
  destruct (dict_lookup response "organic_results") as [[| | | |entries|]|];
    simpl; try lia.
  etransitivity; [apply length_omap_le|]. rewrite length_firstn. apply Nat.le_min_l.
Qed.

(** C2. On a response of the search API's type, [multi_engine_search]
    returns the ['link'] values of the first five entries of
    ['organic_results'], in order, without the entries whose ['link'] is
    missing or empty; the list has at most five elements and is empty when
    the response has no ['organic_results']. *)
Theorem multi_engine_search_links
  (search : dict -> outcome dict) (query engine location device : string)
  (w : world) (response : dict) :
  search (search_params (SERPAPI_API_KEY (module_globals w))
            query engine location device) = Ok response ->
  search_response response = true ->
  fst (multi_engine_search search query engine location device w)
    = Ok (first_five_links response)
  /\ (length (first_five_links response) <= 5)%nat
  /\ (dict_lookup response "organic_results" = None ->
      first_five_links response = []).
Proof.
  intros Hresp Hty. split; [|split].
  - run_tool. rewrite Hresp. simpl.
    unfold search_response in Hty. unfold first_five_links, dict_get.
    destruct (dict_lookup response "organic_results") as [[| | | |entries|]|];
      try discriminate; simpl.
    + rewrite collect_links_dicts; [reflexivity|].
      apply forallb_firstn, Hty.
    + reflexivity.
  - apply first_five_links_le.
  - intros Hnone. unfold first_five_links. now rewrite Hnone.
Qed.

Lemma multi_engine_search_links_witness :
  fst (multi_engine_search (fun _ => Ok sample_search_response)
         "ai" default_engine default_location default_device sample_world)
    = Ok [VStr "https://a.example/1"; VStr "https://a.example/4";
          VStr "https://a.example/5"].
Proof.
  refine (eq_trans
    (proj1 (multi_engine_search_links (fun _ => Ok sample_search_response)
              "ai" default_engine default_location default_device
              sample_world sample_search_response _ _)) _);
    reflexivity.
Defined.

(** A string ['link'] is kept exactly when it is not the empty string. *)
Lemma link_of_string d s :
  dict_lookup d "link" = Some (VStr s) ->
  link_of (VDict d) = if String.eqb s "" then None else Some (VStr s).
Proof. intros H. simpl. rewrite H. unfold empty. simpl. now destruct (String.eqb s ""). Qed.

(** ** extract_web_content_from_links *)

(** What the loop stores for a URL, given the extractor's outcome. *)
Lemma extract_one_stores article url extracted w :
  fst (extract_one article url extracted w)
    = Ok (<[url := stored (article url)]> extracted).
Proof.
  unfold extract_one, Article_text. simpl. now destruct (article url).
Qed.

Lemma extract_loop_entries article urls (extracted : gmap string string) w :
  exists result : gmap string string,
    fst (extract_loop article urls extracted w) = Ok result
    /\ dom result = list_to_set urls ∪ dom extracted
    /\ Forall (fun url => result !! url = Some (stored (article url))) urls
    /\ (forall k, k ∉ urls -> result !! k = extracted !! k).
Proof.
  revert extracted w. induction urls as [|url urls IH]; intros extracted w.
  - exists extracted. simpl. repeat split; [set_solver | constructor].
  - simpl. unfold bind.
    pose proof (extract_one_stores article url extracted w) as Hone.
    destruct (extract_one article url extracted w) as [[m1|e] w1]; simpl in Hone;
      [|discriminate].
    injection Hone as ->.
    destruct (IH (<[url := stored (article url)]> extracted) w1)
      as (result & Hres & Hdom & Hall & Hother).
    exists result. repeat split.
    + exact Hres.
    + rewrite Hdom, dom_insert_L. set_solver.
    + constructor; [|exact Hall].
      destruct (decide (url ∈ urls)) as [Hin|Hnin].
      * rewrite Forall_forall in Hall. apply Hall, Hin.
      * rewrite Hother by exact Hnin. apply lookup_insert_eq.
    + intros k Hk. rewrite Hother by set_solver.
      apply lookup_insert_ne. set_solver.
Qed.


(** ** Statelessness *)

Lemma extract_loop_run article urls extracted w :
  extract_loop article urls extracted w
    = (Ok (foldl (fun m url => <[url := stored (article url)]> m) extracted urls),
       World (module_globals w) (requests w ++ map Article_download_parse urls)).
Proof.
  revert extracted w. induction urls as [|url urls IH]; intros extracted w; simpl.
  - unfold ret. rewrite app_nil_r. now destruct w.
  - unfold bind, extract_one, Article_text.
    destruct (article url) as [text|e]; simpl; rewrite IH; simpl;
      now rewrite <- app_assoc.
Qed.

Lemma multi_engine_search_frame search query engine location device w :
  module_globals (snd (multi_engine_search search query engine location device w))
    = module_globals w
  /\ requests (snd (multi_engine_search search query engine location device w))
    = requests w ++
      [GoogleSearch_get_dict
         (search_params (SERPAPI_API_KEY (module_globals w))
            query engine location device)].
Proof. run_tool. repeat case_match; simpl; auto. Qed.

Lemma keyword_research_frame search topic w :
  module_globals (snd (keyword_research search topic w)) = module_globals w
  /\ exists sent,
       requests (snd (keyword_research search topic w)) = requests w ++ sent
       /\ keyword_requests (SERPAPI_API_KEY (module_globals w)) topic sent.
Proof.
  run_tool. unfold keyword_requests.
  repeat case_match; simplify_eq; simpl; (split; [reflexivity|]);
    rewrite <- ?app_assoc; simpl; eauto.
Qed.

Lemma multi_engine_search_agree search1 search2 query engine location device w1 w2 :
  module_globals w1 = module_globals w2 ->
  (forall p, search1 p = search2 p) ->
  fst (multi_engine_search search1 query engine location device w1)
    = fst (multi_engine_search search2 query engine location device w2).
Proof.
  intros Hg Hs. run_tool. rewrite Hg, Hs. repeat case_match; simplify_eq; auto.
Qed.

Lemma keyword_research_agree search1 search2 topic w1 w2 :
  module_globals w1 = module_globals w2 ->
  (forall p, search1 p = search2 p) ->
  fst (keyword_research search1 topic w1) = fst (keyword_research search2 topic w2).
Proof.
  intros Hg Hs. run_tool. rewrite Hg, Hs.
  repeat (case_match; simplify_eq; simpl; try rewrite Hs in *; auto).
Qed.

Lemma extract_agree article1 article2 urls w1 w2 :
  (forall u, article1 u = article2 u) ->
  fst (extract_web_content_from_links article1 urls w1)
    = fst (extract_web_content_from_links article2 urls w2).
Proof.
  intros Ha. unfold extract_web_content_from_links. rewrite !extract_loop_run. simpl.
  f_equal. generalize (∅ : gmap string string).
  induction urls as [|url urls IH]; intros m; simpl; [reflexivity|].
  now rewrite Ha, IH.
Qed.

(** C3. The three tool functions are stateless: a call leaves the module's
    globals as they were, and two calls of one function with equal arguments
    return equal values when the services answer alike, whatever was called
    before. *)
Theorem tools_are_stateless
  (search1 search2 : dict -> outcome dict)
  (article1 article2 : string -> outcome string) (w1 w2 : world) :
  module_globals w1 = module_globals w2 ->
  (forall params, search1 params = search2 params) ->
  (forall url, article1 url = article2 url) ->
  (forall query engine location device,
      module_globals (snd (multi_engine_search search1 query engine location device w1))
        = module_globals w1
      /\ fst (multi_engine_search search1 query engine location device w1)
         = fst (multi_engine_search search2 query engine location device w2))
  /\ (forall urls,
      module_globals (snd (extract_web_content_from_links article1 urls w1))
        = module_globals w1
      /\ fst (extract_web_content_from_links article1 urls w1)
         = fst (extract_web_content_from_links article2 urls w2))
  /\ (forall topic,
      module_globals (snd (keyword_research search1 topic w1)) = module_globals w1
      /\ fst (keyword_research search1 topic w1)
         = fst (keyword_research search2 topic w2)).
Proof.
  intros Hg Hs Ha. repeat split.
  - apply multi_engine_search_frame.
  - now apply multi_engine_search_agree.
  - unfold extract_web_content_from_links. now rewrite extract_loop_run.
  - now apply extract_agree.
  - apply keyword_research_frame.
  - now apply keyword_research_agree.
Qed.

Lemma tools_are_stateless_witness :
  fst (multi_engine_search (fun _ => Ok sample_search_response)
         "ai" "google" "United States" "desktop" sample_world)
  = fst (multi_engine_search (fun _ => Ok sample_search_response)
         "ai" "google" "United States" "desktop" sample_later_world).
Proof.
  refine (proj2 (proj1 (tools_are_stateless
            (fun _ => Ok sample_search_response) (fun _ => Ok sample_search_response)
            (fun _ => Ok "text") (fun _ => Ok "text")
            sample_world sample_later_world _ _ _) _ _ _ _));
    reflexivity.
Defined.

(** ** The registry *)

(** C7. The server registers exactly three tools, [multi_engine_search],
    [extract_web_content_from_links] and [keyword_research], and none of
    them calls another: no tool's name is among the names called in a tool's
    body, and the only calls a tool makes to the outside are its own requests
    to the search service or to the article extractor. *)
Theorem server_has_three_independent_tools
  (getenv : string -> value) (sent : list request)
  (search : dict -> outcome dict) (article : string -> outcome string) :
  fst (get_server (World (module_init getenv) sent))
    = Ok (server (module_init getenv))
  /\ map (fun t => (tool_name t, tool_handler t))
         (mcp_tools (server (module_init getenv)))
     = [("multi_engine_search", Fn_multi_engine_search);
        ("extract_web_content_from_links", Fn_extract_web_content_from_links);
        ("keyword_research", Fn_keyword_research)]
  /\ (forall f t, In t (mcp_tools (server (module_init getenv))) ->
        ~ In (tool_name t) (call_sites f))
  /\ (forall w query engine location device,
        requests (snd (multi_engine_search search query engine location device w))
        = requests w ++
          [GoogleSearch_get_dict
             (search_params (SERPAPI_API_KEY (module_globals w))
                query engine location device)])
  /\ (forall w urls,
        requests (snd (extract_web_content_from_links article urls w))
        = requests w ++ map Article_download_parse urls)
  /\ (forall w topic, exists sent',
        requests (snd (keyword_research search topic w)) = requests w ++ sent'
        /\ keyword_requests (SERPAPI_API_KEY (module_globals w)) topic sent').
Proof.
  split; [reflexivity|]. split; [reflexivity|]. split; [|split; [|split]].
  - intros f t Ht. simpl in Ht.
    destruct Ht as [<-|[<-|[<-|[]]]]; destruct f; simpl; intuition discriminate.
  - intros. apply multi_engine_search_frame.
  - intros. unfold extract_web_content_from_links. now rewrite extract_loop_run.
  - intros. apply keyword_research_frame.
Qed.

(** ** keyword_research *)

Lemma values_of_suggestions items :
  forallb suggestion items = true ->
  values_of items
    = Ok (omap (fun v => match v with VDict d => dict_lookup d "value" | _ => None end)
               items)
  /\ forallb is_str
       (omap (fun v => match v with VDict d => dict_lookup d "value" | _ => None end)
             items) = true.
Proof.
  induction items as [|item items IH]; csimpl; [auto|].
  intros [Hi Hs]%andb_prop. destruct (IH Hs) as [-> Hstr].
  destruct item as [| | | | |d]; try discriminate. simpl in Hi. simpl.
  destruct (dict_lookup d "value") as [[| | |s| |]|]; try discriminate.
  csimpl. auto.
Qed.


Lemma nth_error_is_lookup {A} (l : list A) i : nth_error l i = l !! i.
Proof. revert i. induction l; intros [|i]; simpl; auto. Qed.

Lemma list_index_last {A} (l : list A) : l <> [] -> list_index l (-1) = last l.
Proof.
  intros Hne. unfold list_index. rewrite last_lookup, nth_error_is_lookup.
  destruct l as [|a l]; [congruence|]. simpl length.
  replace (-1 <? 0) with true by reflexivity.
  replace (0 <=? -1 + Z.of_nat (S (length l))) with true by (symmetry; apply Z.leb_le; lia).
  replace (-1 + Z.of_nat (S (length l)) <? Z.of_nat (S (length l))) with true
    by (symmetry; apply Z.ltb_lt; lia).
  simpl. f_equal. lia.
Qed.








(** ** Exceptions *)

Lemma multi_engine_search_propagates search query engine location device w e :
  search (search_params (SERPAPI_API_KEY (module_globals w))
            query engine location device) = Raise e ->
  fst (multi_engine_search search query engine location device w) = Raise e.
Proof. intros H. run_tool. now rewrite H. Qed.

Lemma keyword_research_propagates search topic w e :
  search (autocomplete_params (SERPAPI_API_KEY (module_globals w)) topic) = Raise e ->
  fst (keyword_research search topic w) = Raise e.
Proof. intros H. run_tool. now rewrite H. Qed.

Lemma extract_catches article urls w :
  exists extracted : gmap string string,
    fst (extract_web_content_from_links article urls w) = Ok extracted
    /\ Forall (fun url => extracted !! url = Some (stored (article url))) urls.
Proof.
  unfold extract_web_content_from_links.
  destruct (extract_loop_entries article urls ∅ w) as (r & Hr & _ & Hall & _).
  eauto.
Qed.

(** An exception of the search service, at either request of
    [keyword_research], is the exception of the call: no value stands in
    for it. *)
Lemma keyword_research_propagates_any search topic w sent params e :
  requests (snd (keyword_research search topic w)) = requests w ++ sent ->
  In (GoogleSearch_get_dict params) sent ->
  search params = Raise e ->
  fst (keyword_research search topic w) = Raise e.
Proof.
  run_tool.
  repeat case_match; simplify_eq; simpl in *; rewrite <- ?app_assoc;
    intros Hsent Hin Hraise; apply app_inv_head in Hsent; subst sent;
    simpl in Hin;
    repeat match goal with
           | H : _ \/ _ |- _ => destruct H
           | H : False |- _ => destruct H
           end;
    simplify_eq; congruence.
Qed.

(** Outside the API's type the search tool raises: a [null]
    ['organic_results'] cannot be sliced. *)
Example multi_engine_search_null_results :
  fst (multi_engine_search (fun _ => Ok [("organic_results", VNone)])
         "ai" default_engine default_location default_device sample_world)
  = Raise (TypeError "'NoneType' object is not subscriptable").
Proof. reflexivity. Qed.

End SearchMcpFacts.

(* ===================================================================== *)
(** * The two UI scripts                                                 *)
(* ===================================================================== *)

Module AppFacts.
Import Py CrewAI Streamlit Claims Samples PyFacts.

Lemma nonblank topic : strip topic <> "" -> String.eqb (strip topic) "" = false.
Proof. intros H. now apply String.eqb_neq. Qed.

Lemma blank topic : all_chars isspace topic = true -> String.eqb (strip topic) "" = true.
Proof. intros H. apply String.eqb_eq, strip_spaces, H. Qed.

(** ** The direct variant *)

Lemma direct_blank api kickoff topic :
  all_chars isspace topic = true ->
  DirectApp.on_generate api kickoff topic
    = ([st_error "Please enter a topic for the blog post."], Ok tt).
Proof. intros H. unfold DirectApp.on_generate. now rewrite blank. Qed.


Lemma direct_failure api kickoff topic e :
  strip topic <> "" ->
  kickoff (DirectApp.make_crew api topic) = Raise e ->
  DirectApp.on_generate api kickoff topic
    = ([Enter (st_spinner ("AI agents are working on: '" +:+ topic +:+ "'..."));
        Crew_new (DirectApp.make_crew api topic);
        Crew_kickoff (DirectApp.make_crew api topic);
        st_error ("And error occurred: " +:+ str_exn e);
        Exit (st_spinner ("AI agents are working on: '" +:+ topic +:+ "'..."))],
       Ok tt).
Proof.
  intros Hb Hk. unfold DirectApp.on_generate, DirectApp.run_blog_generation.
  rewrite nonblank by exact Hb. cbv zeta.
  unfold with_, try_except, bind, call. rewrite Hk. reflexivity.
Qed.

(** ** The remote-tool variant *)

Lemma mcp_blank pat connect kickoff topic :
  all_chars isspace topic = true ->
  McpApp.on_generate pat connect kickoff topic
    = ([st_error "Please enter a topic for the blog post."], Ok tt).
Proof. intros H. unfold McpApp.on_generate. now rewrite blank. Qed.


Lemma mcp_connect_failure pat connect kickoff topic e :
  strip topic <> "" ->
  connect (McpApp.server_params pat) = Raise e ->
  McpApp.on_generate pat connect kickoff topic
    = ([Enter (st_spinner ("Running agents on: '" +:+ topic +:+ "'..."));
        st_error ("An error occurred: " +:+ str_exn e);
        Exit (st_spinner ("Running agents on: '" +:+ topic +:+ "'..."))],
       Ok tt).
Proof.
  intros Hb Hc. unfold McpApp.on_generate.
  rewrite nonblank by exact Hb. rewrite Hc. reflexivity.
Qed.

Lemma mcp_kickoff_failure pat connect kickoff topic mcp_tools e :
  strip topic <> "" ->
  connect (McpApp.server_params pat) = Ok mcp_tools ->
  kickoff (McpApp.make_crew pat mcp_tools topic) = Raise e ->
  McpApp.on_generate pat connect kickoff topic
    = ([Enter (st_spinner ("Running agents on: '" +:+ topic +:+ "'..."));
        Enter (MCPServerAdapter (McpApp.server_params pat));
        st_info ("✅ Connected to MCP Server. Tools: " +:+ repr_str_list mcp_tools);
        Crew_new (McpApp.make_crew pat mcp_tools topic);
        Crew_kickoff (McpApp.make_crew pat mcp_tools topic);
        Exit (MCPServerAdapter (McpApp.server_params pat));
        st_error ("An error occurred: " +:+ str_exn e);
        Exit (st_spinner ("Running agents on: '" +:+ topic +:+ "'..."))],
       Ok tt).
Proof.
  intros Hb Hc Hk. unfold McpApp.on_generate.
  rewrite nonblank by exact Hb. rewrite Hc.
  unfold with_as, McpApp.generate_with. cbv zeta.
  unfold with_, try_except, bind, call. rewrite Hk. reflexivity.
Qed.

(** ** The whole page *)

Lemma direct_on_generate_ends api kickoff topic :
  snd (DirectApp.on_generate api kickoff topic) = Ok tt.
Proof.
  unfold DirectApp.on_generate, DirectApp.run_blog_generation.
  destruct (String.eqb (strip topic) ""); [reflexivity|]. cbv zeta.
  unfold with_, try_except, bind, call.
  now destruct (kickoff (DirectApp.make_crew api topic)).
Qed.

Lemma mcp_on_generate_ends pat connect kickoff topic :
  snd (McpApp.on_generate pat connect kickoff topic) = Ok tt.
Proof.
  unfold McpApp.on_generate.
  destruct (String.eqb (strip topic) ""); [reflexivity|].
  destruct (connect (McpApp.server_params pat)) as [mcp_tools|e]; [|reflexivity].
  unfold with_as, McpApp.generate_with. cbv zeta.
  unfold with_, try_except, bind, call.
  now destruct (kickoff (McpApp.make_crew pat mcp_tools topic)).
Qed.

Lemma direct_main_trace api kickoff topic generate_button :
  trace (DirectApp.main api kickoff topic generate_button)
    = trace DirectApp.page_top
      ++ (if generate_button then trace (DirectApp.on_generate api kickoff topic)
          else [])
      ++ trace DirectApp.sidebar.
Proof.
  unfold DirectApp.main. destruct generate_button; [|reflexivity].
  pose proof (direct_on_generate_ends api kickoff topic) as Hend.
  destruct (DirectApp.on_generate api kickoff topic) as [t r]. simpl in Hend.
  subst r. reflexivity.
Qed.

Lemma mcp_main_trace pat connect kickoff topic generate_button :
  trace (McpApp.main pat connect kickoff topic generate_button)
    = trace McpApp.page_top
      ++ (if generate_button
          then trace (McpApp.on_generate pat connect kickoff topic) else [])
      ++ trace McpApp.sidebar.
Proof.
  unfold McpApp.main. destruct generate_button; [|reflexivity].
  pose proof (mcp_on_generate_ends pat connect kickoff topic) as Hend.
  destruct (McpApp.on_generate pat connect kickoff topic) as [t r]. simpl in Hend.
  subst r. reflexivity.
Qed.

(** ** Blank topics *)

(** C10. In both variants, when the topic is empty or made of white space
    only and the button is pressed, the page shows an error message and no
    run is started: no tool server is contacted, no crew is constructed and
    none is kicked off. *)
Theorem blank_topic_starts_no_run
  (api : option string) (pat : string)
  (connect : server_params_t -> outcome (list string))
  (kickoff_direct kickoff_mcp : Crew -> outcome CrewOutput) (topic : string) :
  all_chars isspace topic = true ->
  DirectApp.on_generate api kickoff_direct topic
    = ([st_error "Please enter a topic for the blog post."], Ok tt)
  /\ McpApp.on_generate pat connect kickoff_mcp topic
    = ([st_error "Please enter a topic for the blog post."], Ok tt)
  /\ List.filter starts_run (trace (DirectApp.main api kickoff_direct topic true)) = []
  /\ List.filter starts_run (trace (McpApp.main pat connect kickoff_mcp topic true)) = [].
Proof.
  intros Hblank.
  split; [now apply direct_blank|]. split; [now apply mcp_blank|]. split.
  - rewrite direct_main_trace, direct_blank by exact Hblank. reflexivity.
  - rewrite mcp_main_trace, mcp_blank by exact Hblank. reflexivity.
Qed.

Lemma blank_topic_starts_no_run_witness :
  DirectApp.on_generate None sample_kickoff "  "
    = ([st_error "Please enter a topic for the blog post."], Ok tt).
Proof.
  apply (blank_topic_starts_no_run None "pat" sample_connect
           sample_kickoff sample_kickoff "  ").
  reflexivity.
Defined.

(** ** The crews *)

(** C5. Both variants run their tasks sequentially with the previous task
    as context: the crew that is constructed and kicked off has
    [Process.sequential], and every task after the first lists exactly the
    task before it as its context ([writing_task] has [research_task];
    [write_task] has [plan_task] and [edit_task] has [write_task]). *)
Theorem crews_are_sequential_and_chained
  (api : option string) (pat : string) (mcp_tools : list string)
  (connect : server_params_t -> outcome (list string))
  (kickoff_direct kickoff_mcp : Crew -> outcome CrewOutput) (topic : string) :
  (process (DirectApp.make_crew api topic) = sequential
   /\ tasks (DirectApp.make_crew api topic)
      = [fst (DirectApp.create_tasks api topic);
         snd (DirectApp.create_tasks api topic)]
   /\ context (fst (DirectApp.create_tasks api topic)) = []
   /\ context (snd (DirectApp.create_tasks api topic))
      = [fst (DirectApp.create_tasks api topic)]
   /\ chained (tasks (DirectApp.make_crew api topic))
   /\ kicked_off (trace (DirectApp.on_generate api kickoff_direct topic))
      = if String.eqb (strip topic) "" then []
        else [DirectApp.make_crew api topic])
  /\ (process (McpApp.make_crew pat mcp_tools topic) = sequential
      /\ tasks (McpApp.make_crew pat mcp_tools topic)
         = [McpApp.plan_task pat mcp_tools topic;
            McpApp.write_task pat mcp_tools topic;
            McpApp.edit_task pat mcp_tools topic]
      /\ context (McpApp.plan_task pat mcp_tools topic) = []
      /\ context (McpApp.write_task pat mcp_tools topic)
         = [McpApp.plan_task pat mcp_tools topic]
      /\ context (McpApp.edit_task pat mcp_tools topic)
         = [McpApp.write_task pat mcp_tools topic]
      /\ chained (tasks (McpApp.make_crew pat mcp_tools topic))
      /\ kicked_off (trace (McpApp.on_generate pat connect kickoff_mcp topic))
         = if String.eqb (strip topic) "" then []
           else match connect (McpApp.server_params pat) with
                | Ok offered => [McpApp.make_crew pat offered topic]
                | Raise _ => []
                end).
Proof.
  split.
  - repeat (split; [reflexivity|]). split; [simpl; auto|].
    unfold DirectApp.on_generate, DirectApp.run_blog_generation.
    destruct (String.eqb (strip topic) ""); [reflexivity|]. cbv zeta.
    unfold with_, try_except, bind, call.
    now destruct (kickoff_direct (DirectApp.make_crew api topic)).
  - repeat (split; [reflexivity|]). split; [simpl; auto|].
    unfold McpApp.on_generate.
    destruct (String.eqb (strip topic) ""); [reflexivity|].
    destruct (connect (McpApp.server_params pat)) as [offered|e]; [|reflexivity].
    unfold with_as, McpApp.generate_with. cbv zeta.
    unfold with_, try_except, bind, call.
    now destruct (kickoff_mcp (McpApp.make_crew pat offered topic)).
Qed.

(** ** A successful run *)



(** ** What the topic influences *)

Lemma direct_on_generate_modulo api kickoff topic1 topic2 :
  String.eqb (strip topic1) "" = String.eqb (strip topic2) "" ->
  kickoff (DirectApp.make_crew api topic1) = kickoff (DirectApp.make_crew api topic2) ->
  map (fun a => modulo_spinner (modulo_descriptions_and_file_name a))
      (trace (DirectApp.on_generate api kickoff topic1))
  = map (fun a => modulo_spinner (modulo_descriptions_and_file_name a))
      (trace (DirectApp.on_generate api kickoff topic2)).
Proof.
  intros Hb Hk. unfold DirectApp.on_generate, DirectApp.run_blog_generation.
  rewrite Hb. destruct (String.eqb (strip topic2) ""); [reflexivity|]. cbv zeta.
  unfold with_, try_except, bind, call. rewrite Hk.
  destruct (kickoff (DirectApp.make_crew api topic2)); reflexivity.
Qed.

Lemma mcp_on_generate_modulo pat connect kickoff topic1 topic2 :
  String.eqb (strip topic1) "" = String.eqb (strip topic2) "" ->
  (forall mcp_tools, kickoff (McpApp.make_crew pat mcp_tools topic1)
                     = kickoff (McpApp.make_crew pat mcp_tools topic2)) ->
  map (fun a => modulo_spinner (modulo_descriptions_and_file_name a))
      (trace (McpApp.on_generate pat connect kickoff topic1))
  = map (fun a => modulo_spinner (modulo_descriptions_and_file_name a))
      (trace (McpApp.on_generate pat connect kickoff topic2)).
Proof.
  intros Hb Hk. unfold McpApp.on_generate.
  rewrite Hb. destruct (String.eqb (strip topic2) ""); [reflexivity|].
  destruct (connect (McpApp.server_params pat)) as [mcp_tools|e]; [|reflexivity].
  unfold with_as, McpApp.generate_with. cbv zeta.
  unfold with_, try_except, bind, call. rewrite Hk.
  destruct (kickoff (McpApp.make_crew pat mcp_tools topic2)); reflexivity.
Qed.

(** C9, as the code has it. The agents do not depend on the topic. The
    topic decides whether a run starts (a blank one does not); for two topics
    that are both blank or both not, and a runtime that treats the two crews
    alike, the two runs of the page differ only in the task descriptions, in
    the download's file name and in the text of the spinner. *)
Theorem topic_reaches_descriptions_file_name_and_spinner
  (api : option string) (pat : string)
  (connect : server_params_t -> outcome (list string))
  (kickoff_direct kickoff_mcp : Crew -> outcome CrewOutput)
  (topic1 topic2 : string) (generate_button : bool) :
  String.eqb (strip topic1) "" = String.eqb (strip topic2) "" ->
  kickoff_direct (DirectApp.make_crew api topic1)
    = kickoff_direct (DirectApp.make_crew api topic2) ->
  (forall mcp_tools, kickoff_mcp (McpApp.make_crew pat mcp_tools topic1)
                     = kickoff_mcp (McpApp.make_crew pat mcp_tools topic2)) ->
  (agents (DirectApp.make_crew api topic1) = [DirectApp.researcher api; DirectApp.writer api]
   /\ agents (DirectApp.make_crew api topic2) = [DirectApp.researcher api; DirectApp.writer api]
   /\ map agent (tasks (DirectApp.make_crew api topic1))
      = map agent (tasks (DirectApp.make_crew api topic2)))
  /\ (forall mcp_tools,
        agents (McpApp.make_crew pat mcp_tools topic1)
          = [McpApp.planner pat mcp_tools; McpApp.writer pat; McpApp.editor pat]
        /\ agents (McpApp.make_crew pat mcp_tools topic2)
          = [McpApp.planner pat mcp_tools; McpApp.writer pat; McpApp.editor pat]
        /\ map agent (tasks (McpApp.make_crew pat mcp_tools topic1))
           = map agent (tasks (McpApp.make_crew pat mcp_tools topic2)))
  /\ map (fun a => modulo_spinner (modulo_descriptions_and_file_name a))
         (trace (DirectApp.main api kickoff_direct topic1 generate_button))
     = map (fun a => modulo_spinner (modulo_descriptions_and_file_name a))
         (trace (DirectApp.main api kickoff_direct topic2 generate_button))
  /\ map (fun a => modulo_spinner (modulo_descriptions_and_file_name a))
         (trace (McpApp.main pat connect kickoff_mcp topic1 generate_button))
     = map (fun a => modulo_spinner (modulo_descriptions_and_file_name a))
         (trace (McpApp.main pat connect kickoff_mcp topic2 generate_button)).
Proof.
  intros Hb Hd Hm. split; [repeat split|]. split; [intros; repeat split|]. split.
  - rewrite !direct_main_trace, !map_app. f_equal. f_equal.
    destruct generate_button; [|reflexivity].
    now apply direct_on_generate_modulo.
  - rewrite !mcp_main_trace, !map_app. f_equal. f_equal.
    destruct generate_button; [|reflexivity].
    now apply mcp_on_generate_modulo.
Qed.

Lemma topic_reaches_descriptions_file_name_and_spinner_witness :
  map (fun a => modulo_spinner (modulo_descriptions_and_file_name a))
      (trace (DirectApp.main None sample_kickoff "a" true))
  = map (fun a => modulo_spinner (modulo_descriptions_and_file_name a))
      (trace (DirectApp.main None sample_kickoff "b" true)).
Proof.
  refine (proj1 (proj2 (proj2
            (topic_reaches_descriptions_file_name_and_spinner None "pat"
               sample_connect sample_kickoff sample_kickoff "a" "b" true
               _ _ _))));
    reflexivity.
Defined.

(** C9, as stated, fails: for the topics [a] and [b], and a runtime that
    returns the same post for both crews, the page differs in more than the
    task descriptions and the file name, since the spinner quotes the
    topic; and a blank topic gets the error message where [a] gets a run. *)
Lemma topic_reaches_spinner_and_gate :
  (sample_kickoff (DirectApp.make_crew None "a")
     = sample_kickoff (DirectApp.make_crew None "b"))
  /\ In (Enter (st_spinner "AI agents are working on: 'a'..."))
        (map modulo_descriptions_and_file_name
             (trace (DirectApp.main None sample_kickoff "a" true)))
  /\ ~ In (Enter (st_spinner "AI agents are working on: 'a'..."))
          (map modulo_descriptions_and_file_name
               (trace (DirectApp.main None sample_kickoff "b" true)))
  /\ map modulo_descriptions_and_file_name
         (trace (DirectApp.main None sample_kickoff "a" true))
     <> map modulo_descriptions_and_file_name
         (trace (DirectApp.main None sample_kickoff "b" true))
  /\ trace (DirectApp.on_generate None sample_kickoff " ")
     = [st_error "Please enter a topic for the blog post."]
  /\ map modulo_descriptions_and_file_name
         (trace (DirectApp.main None sample_kickoff " " true))
     <> map modulo_descriptions_and_file_name
         (trace (DirectApp.main None sample_kickoff "a" true)).
Proof.
  split; [reflexivity|].
  assert (Hin : In (Enter (st_spinner "AI agents are working on: 'a'..."))
                   (map modulo_descriptions_and_file_name
                      (trace (DirectApp.main None sample_kickoff "a" true)))).
  { vm_compute. do 13 right. left. reflexivity. }
  assert (Hnin : forall t, t = " " \/ t = "b" ->
            ~ In (Enter (st_spinner "AI agents are working on: 'a'..."))
                 (map modulo_descriptions_and_file_name
                    (trace (DirectApp.main None sample_kickoff t true)))).
  { intros t [->| ->]; vm_compute; intros H;
      repeat (destruct H as [H|H]; [discriminate H|]); exact H. }
  split; [exact Hin|]. split; [apply Hnin; auto|].
  split; [intros Heq; apply (Hnin "b"); [auto | rewrite <- Heq; exact Hin]|].
  split; [reflexivity|].
  intros Heq. apply (Hnin " "); [auto | rewrite Heq; exact Hin].
Qed.

(** ** Exceptions *)

(** C1, as the code has it. The generation handler of the page catches the
    exception of a failed run and shows it as an error message, and the page
    goes on. Below it, [multi_engine_search] and [keyword_research] let an
    exception of the search service through, whereas
    [extract_web_content_from_links] catches the exception of each URL and
    stores ['Error extracting content: ...'] for that URL. *)
Theorem exceptions_shown_at_top_or_stored_per_url
  (api : option string) (pat : string)
  (connect : server_params_t -> outcome (list string))
  (kickoff_direct kickoff_mcp : Crew -> outcome CrewOutput) (topic : string)
  (search : Py.dict -> outcome Py.dict) (article : string -> outcome string)
  (w : SearchMcp.world) :
  strip topic <> "" ->
  (forall e, kickoff_direct (DirectApp.make_crew api topic) = Raise e ->
     DirectApp.on_generate api kickoff_direct topic
     = ([Enter (st_spinner ("AI agents are working on: '" +:+ topic +:+ "'..."));
         Crew_new (DirectApp.make_crew api topic);
         Crew_kickoff (DirectApp.make_crew api topic);
         st_error ("And error occurred: " +:+ str_exn e);
         Exit (st_spinner ("AI agents are working on: '" +:+ topic +:+ "'..."))],
        Ok tt))
  /\ (forall e, connect (McpApp.server_params pat) = Raise e ->
     McpApp.on_generate pat connect kickoff_mcp topic
     = ([Enter (st_spinner ("Running agents on: '" +:+ topic +:+ "'..."));
         st_error ("An error occurred: " +:+ str_exn e);
         Exit (st_spinner ("Running agents on: '" +:+ topic +:+ "'..."))],
        Ok tt))
  /\ (forall mcp_tools e,
     connect (McpApp.server_params pat) = Ok mcp_tools ->
     kickoff_mcp (McpApp.make_crew pat mcp_tools topic) = Raise e ->
     McpApp.on_generate pat connect kickoff_mcp topic
     = ([Enter (st_spinner ("Running agents on: '" +:+ topic +:+ "'..."));
         Enter (MCPServerAdapter (McpApp.server_params pat));
         st_info ("✅ Connected to MCP Server. Tools: " +:+ repr_str_list mcp_tools);
         Crew_new (McpApp.make_crew pat mcp_tools topic);
         Crew_kickoff (McpApp.make_crew pat mcp_tools topic);
         Exit (MCPServerAdapter (McpApp.server_params pat));
         st_error ("An error occurred: " +:+ str_exn e);
         Exit (st_spinner ("Running agents on: '" +:+ topic +:+ "'..."))],
        Ok tt))
  /\ (forall query engine location device e,
     search (SearchMcp.search_params
               (SearchMcp.SERPAPI_API_KEY (SearchMcp.module_globals w))
               query engine location device) = Raise e ->
     fst (SearchMcp.multi_engine_search search query engine location device w)
     = Raise e)
  /\ (forall keyword_topic sent params e,
     SearchMcp.requests (snd (SearchMcp.keyword_research search keyword_topic w))
       = SearchMcp.requests w ++ sent ->
     In (SearchMcp.GoogleSearch_get_dict params) sent ->
     search params = Raise e ->
     fst (SearchMcp.keyword_research search keyword_topic w) = Raise e)
  /\ (forall urls, exists extracted : gmap string string,
     fst (SearchMcp.extract_web_content_from_links article urls w) = Ok extracted
     /\ Forall (fun url => extracted !! url = Some (stored (article url))) urls).
Proof.
  intros Hb. split; [|split; [|split; [|split; [|split]]]].
  - intros e He. now apply direct_failure.
  - intros e He. now apply mcp_connect_failure.
  - intros mcp_tools e Hc He. now apply mcp_kickoff_failure.
  - intros. now apply SearchMcpFacts.multi_engine_search_propagates.
  - intros. eapply SearchMcpFacts.keyword_research_propagates_any; eauto.
  - intros. apply SearchMcpFacts.extract_catches.
Qed.

Lemma exceptions_shown_at_top_or_stored_per_url_witness :
  DirectApp.on_generate None failing_kickoff "Robotic Vision"
  = ([Enter (st_spinner "AI agents are working on: 'Robotic Vision'...");
      Crew_new (DirectApp.make_crew None "Robotic Vision");
      Crew_kickoff (DirectApp.make_crew None "Robotic Vision");
      st_error "And error occurred: rate limit";
      Exit (st_spinner "AI agents are working on: 'Robotic Vision'...")],
     Ok tt).
Proof.
  refine (proj1 (exceptions_shown_at_top_or_stored_per_url None "pat"
                   sample_connect failing_kickoff failing_kickoff "Robotic Vision"
                   (fun _ => Ok []) failing_article sample_world _)
                (Exception "RuntimeError" "rate limit") _);
    [vm_compute; discriminate | reflexivity].
Defined.

(** C1, as stated, fails: when the download of a URL raises,
    [extract_web_content_from_links] does not raise; it goes on with a
    substituted value for that URL. *)
Lemma extract_goes_on_with_substituted_value :
  failing_article "https://a.example/1"
    = Raise (Exception "ArticleException" "download failed")
  /\ fst (SearchMcp.extract_web_content_from_links failing_article
            ["https://a.example/1"] sample_world)
     = Ok {[ "https://a.example/1" := "Error extracting content: download failed" ]}.
Proof. split; reflexivity. Qed.

End AppFacts.

(* ===================================================================== *)
(** * More on the tool server                                            *)
(* ===================================================================== *)

Module SearchMcpMore.
Import Py SearchMcp Claims Properties Samples PyFacts SearchMcpFacts.

(** ** extract_web_content_from_links *)

Lemma extract_lookup article urls w (extracted : gmap string string) :
  fst (extract_web_content_from_links article urls w) = Ok extracted ->
  forall k, extracted !! k
            = if decide (k ∈ urls) then Some (stored (article k)) else None.
Proof.
  unfold extract_web_content_from_links.
  destruct (extract_loop_entries article urls ∅ w) as (r & Hr & _ & Hall & Hother).
  rewrite Hr. intros [= <-] k. destruct (decide (k ∈ urls)) as [Hin|Hnin].
  - rewrite Forall_forall in Hall. apply Hall, Hin.
  - rewrite Hother by exact Hnin. apply lookup_empty.
Qed.

Lemma extract_returns article urls w :
  exists extracted : gmap string string,
    fst (extract_web_content_from_links article urls w) = Ok extracted
    /\ dom extracted = list_to_set urls.
Proof.
  unfold extract_web_content_from_links.
  destruct (extract_loop_entries article urls ∅ w) as (r & Hr & Hdom & _).
  exists r. split; [exact Hr|]. rewrite Hdom. set_solver.
Qed.

Lemma length_remove_dups_le (l : list string) :
  (length (remove_dups l) <= length l)%nat.
Proof.
  induction l as [|x l IH]; simpl; [lia|].
  destruct (decide_rel elem_of x l); simpl; lia.
Qed.

(** X1. Repeated URLs share one entry: the mapping has as many entries as the
    list has distinct URLs. *)
Theorem extract_one_entry_per_distinct_url
  (article : string -> outcome string) (urls : list string) (w : world) :
  exists extracted : gmap string string,
    fst (extract_web_content_from_links article urls w) = Ok extracted
    /\ size extracted = length (remove_dups urls)
    /\ (size extracted <= length urls)%nat.
Proof.
  destruct (extract_returns article urls w) as (extracted & Hrun & Hdom).
  exists extracted. split; [exact Hrun|].
  assert (Hsize : size extracted = length (remove_dups urls)).
  { rewrite <- (size_dom (D := gset string)), Hdom.
    rewrite <- (size_list_to_set (C := gset string) (remove_dups urls))
      by apply NoDup_remove_dups.
    f_equal. apply set_eq. intros x.
    now rewrite !elem_of_list_to_set, elem_of_remove_dups. }
  split; [exact Hsize|]. rewrite Hsize. apply length_remove_dups_le.
Qed.

(** X2. The mapping depends on which URLs are given, not on their order or on
    how often each is given, nor on what was called before. *)
Theorem extract_depends_on_the_set_of_urls
  (article : string -> outcome string) (urls1 urls2 : list string)
  (w1 w2 : world) :
  (forall u, u ∈ urls1 <-> u ∈ urls2) ->
  fst (extract_web_content_from_links article urls1 w1)
  = fst (extract_web_content_from_links article urls2 w2).
Proof.
  intros Hsame.
  destruct (extract_returns article urls1 w1) as (m1 & H1 & _).
  destruct (extract_returns article urls2 w2) as (m2 & H2 & _).
  rewrite H1, H2. f_equal. apply map_eq. intros k.
  rewrite (extract_lookup _ _ _ _ H1), (extract_lookup _ _ _ _ H2).
  destruct (decide (k ∈ urls1)) as [Hin|Hnin], (decide (k ∈ urls2)) as [Hin'|Hnin'];
    try reflexivity; exfalso; [apply Hnin', Hsame, Hin | apply Hnin, Hsame, Hin'].
Qed.

Lemma extract_depends_on_the_set_of_urls_witness :
  fst (extract_web_content_from_links failing_article
         ["https://a.example/1"; "https://a.example/2"; "https://a.example/1"]
         sample_world)
  = fst (extract_web_content_from_links failing_article
         ["https://a.example/2"; "https://a.example/1"] sample_later_world).
Proof.
  apply (extract_depends_on_the_set_of_urls failing_article
           ["https://a.example/1"; "https://a.example/2"; "https://a.example/1"]
           ["https://a.example/2"; "https://a.example/1"]).
  intros u. rewrite !elem_of_cons, !elem_of_nil. tauto.
Defined.

(** X3. Extracting from a concatenated list gives the union of the two
    mappings. *)
Theorem extract_of_concatenation
  (article : string -> outcome string) (urls1 urls2 : list string) (w : world) :
  exists m1 m2 m : gmap string string,
    fst (extract_web_content_from_links article urls1 w) = Ok m1
    /\ fst (extract_web_content_from_links article urls2 w) = Ok m2
    /\ fst (extract_web_content_from_links article (urls1 ++ urls2) w) = Ok m
    /\ m = m1 ∪ m2.
Proof.
  destruct (extract_returns article urls1 w) as (m1 & H1 & _).
  destruct (extract_returns article urls2 w) as (m2 & H2 & _).
  destruct (extract_returns article (urls1 ++ urls2) w) as (m & H & _).
  exists m1, m2, m. repeat (split; [assumption|]).
  apply map_eq. intros k. rewrite lookup_union.
  rewrite (extract_lookup _ _ _ _ H), (extract_lookup _ _ _ _ H1),
    (extract_lookup _ _ _ _ H2).
  destruct (decide (k ∈ urls1)) as [Hin1|Hn1], (decide (k ∈ urls2)) as [Hin2|Hn2];
    destruct (decide (k ∈ urls1 ++ urls2)) as [Hin|Hn]; try reflexivity;
    exfalso; set_solver.
Qed.

(** ** multi_engine_search *)

(** X4. Entries after the fifth play no part: two responses whose
    ['organic_results'] agree on their first five entries give the same
    outcome, be it a list of links or an exception. *)
Theorem multi_engine_search_reads_five_entries
  (search1 search2 : dict -> outcome dict)
  (query engine location device : string) (w1 w2 : world)
  (response1 response2 : dict) (entries1 entries2 : list value) :
  search1 (search_params (SERPAPI_API_KEY (module_globals w1))
             query engine location device) = Ok response1 ->
  search2 (search_params (SERPAPI_API_KEY (module_globals w2))
             query engine location device) = Ok response2 ->
  dict_lookup response1 "organic_results" = Some (VList entries1) ->
  dict_lookup response2 "organic_results" = Some (VList entries2) ->
  firstn 5 entries1 = firstn 5 entries2 ->
  fst (multi_engine_search search1 query engine location device w1)
  = fst (multi_engine_search search2 query engine location device w2).
Proof.
  intros H1 H2 He1 He2 Hfive. run_tool. rewrite H1, H2. simpl.
  unfold dict_get. rewrite He1, He2. simpl. rewrite Hfive. reflexivity.
Qed.

Lemma multi_engine_search_reads_five_entries_witness :
  fst (multi_engine_search (fun _ => Ok sample_search_response)
         "ai" "google" "United States" "desktop" sample_world)
  = fst (multi_engine_search
           (fun _ => Ok [("organic_results",
                          VList [VDict [("link", VStr "https://a.example/1")];
                                 VDict [("title", VStr "no link")];
                                 VDict [("link", VStr "")];
                                 VDict [("link", VStr "https://a.example/4")];
                                 VDict [("link", VStr "https://a.example/5")];
                                 VInt 7])])
           "ai" "google" "United States" "desktop" sample_world).
Proof.
  eapply (multi_engine_search_reads_five_entries
            (fun _ => Ok sample_search_response) _
            "ai" "google" "United States" "desktop" sample_world sample_world);
    reflexivity.
Defined.

(** ** keyword_research *)

Lemma typed_suggestions items :
  forallb suggestion items = true ->
  omap (fun v => match v with VDict d => dict_lookup d "value" | _ => None end) items
  = map VStr
      (omap (fun v => match v with
                      | VDict d => match dict_lookup d "value" with
                                   | Some (VStr s) => Some s
                                   | _ => None
                                   end
                      | _ => None
                      end) items).
Proof.
  induction items as [|item items IH]; csimpl; [reflexivity|].
  intros [Hi Hs]%andb_prop. rewrite IH by exact Hs.
  destruct item as [| | | | |d]; try discriminate. simpl in Hi.
  destruct (dict_lookup d "value") as [[| | |s| |]|]; try discriminate.
  reflexivity.
Qed.

Lemma join_is_concat sep (l : list string) pos :
  join_from sep (map VStr l) pos = Ok (String.concat sep l).
Proof.
  revert pos. induction l as [|x l IH]; intros pos; [reflexivity|].
  destruct l as [|y l]; [reflexivity|].
  change (join_from sep (map VStr (x :: y :: l)) pos)
    with (obind (join_from sep (map VStr (y :: l)) (S pos))
                (fun r => Ok (x +:+ sep +:+ r))).
  rewrite IH. reflexivity.
Qed.

(** What [keyword_research] does once the autocomplete answer holds at least
    one suggestion: it sends one trends query and builds its result from the
    answer. *)
Lemma keyword_research_run search topic w autocomplete s0 rest :
  search (autocomplete_params (SERPAPI_API_KEY (module_globals w)) topic)
    = Ok autocomplete ->
  autocomplete_response autocomplete = true ->
  suggestion_strings autocomplete = s0 :: rest ->
  keyword_research search topic w
  = (match search (trends_params (SERPAPI_API_KEY (module_globals w))
                     (String.concat ", " (s0 :: rest))) with
     | Raise e => Raise e
     | Ok trends =>
         match dict_lookup trends "interest_over_time" with
         | Some interest =>
             obind (get interest "timeline_data" (VList [])) (fun timeline_data =>
               scored_keywords timeline_data 0 (map VStr (s0 :: rest)) [])
         | None => Ok (unscored_keywords (map VStr (s0 :: rest)) [])
         end
     end,
     World (module_globals w)
       (requests w ++
        [GoogleSearch_get_dict
           (autocomplete_params (SERPAPI_API_KEY (module_globals w)) topic);
         GoogleSearch_get_dict
           (trends_params (SERPAPI_API_KEY (module_globals w))
              (String.concat ", " (s0 :: rest)))])).
Proof.
  intros Hauto Hty Hs. run_tool. rewrite Hauto. simpl.
  unfold autocomplete_response in Hty. unfold suggestion_strings in Hs.
  unfold dict_get.
  destruct (dict_lookup autocomplete "suggestions") as [[| | | |items|]|];
    try discriminate.
  simpl slice_to. cbv beta iota. simpl iter. cbv beta iota.
  destruct (values_of_suggestions (firstn 5 items)) as [-> _];
    [now apply forallb_firstn|].
  rewrite typed_suggestions by now apply forallb_firstn.
  rewrite Hs. simpl (negb _). cbv beta iota.
  unfold join. rewrite join_is_concat. cbv beta iota. simpl module_globals.
  destruct (search (trends_params _ _)) as [trends|e]; simpl requests;
    rewrite <- ?app_assoc; [|reflexivity].
  unfold dict_contains.
  destruct (dict_lookup trends "interest_over_time") as [interest|] eqn:Ei;
    [|reflexivity].
  cbv beta iota.
  destruct (get interest "timeline_data" (VList [])); reflexivity.
Qed.

(** X5. Without suggestions (no ['suggestions'] in the autocomplete answer, or an
    empty array) [keyword_research] returns the one error entry and never
    asks for trends. *)
Theorem keyword_research_without_suggestions
  (search : dict -> outcome dict) (topic : string) (w : world)
  (autocomplete : dict) :
  search (autocomplete_params (SERPAPI_API_KEY (module_globals w)) topic)
    = Ok autocomplete ->
  dict_lookup autocomplete "suggestions" = None
  \/ dict_lookup autocomplete "suggestions" = Some (VList []) ->
  keyword_research search topic w
  = (Ok [VDict [("error", VStr "Could not fetch keyword suggestions.")]],
     World (module_globals w)
       (requests w ++
        [GoogleSearch_get_dict
           (autocomplete_params (SERPAPI_API_KEY (module_globals w)) topic)])).
Proof.
  intros Hauto Hnone. run_tool. rewrite Hauto. simpl. unfold dict_get.
  destruct Hnone as [-> | ->]; reflexivity.
Qed.

Lemma keyword_research_without_suggestions_witness :
  fst (keyword_research (fun _ => Ok [("error", VStr "Invalid API key.")])
         "home automation" sample_world)
  = Ok [VDict [("error", VStr "Could not fetch keyword suggestions.")]].
Proof.
  refine (f_equal fst
            (keyword_research_without_suggestions
               (fun _ => Ok [("error", VStr "Invalid API key.")])
               "home automation" sample_world
               [("error", VStr "Invalid API key.")] _ _));
    [reflexivity | left; reflexivity].
Defined.

Lemma unscored_keywords_is_map suggestions keyword_data :
  unscored_keywords suggestions keyword_data
  = keyword_data ++ map (fun k => keyword_entry k (VStr "N/A")) suggestions.
Proof.
  revert keyword_data. induction suggestions as [|k rest IH]; intros kd; simpl.
  - now rewrite app_nil_r.
  - rewrite IH, <- app_assoc. reflexivity.
Qed.

Lemma scored_keywords_no_timeline timeline_data i suggestions keyword_data :
  truthy timeline_data = false ->
  scored_keywords timeline_data i suggestions keyword_data
  = Ok (keyword_data ++ map (fun k => keyword_entry k (VStr "N/A")) suggestions).
Proof.
  intros Hf. revert i keyword_data.
  induction suggestions as [|k rest IH]; intros i kd; simpl.
  - now rewrite app_nil_r.
  - unfold last_value_at. rewrite Hf. simpl. rewrite IH, <- app_assoc. reflexivity.
Qed.

(** X6. When the trends answer has no ['interest_over_time'], or one whose
    ['timeline_data'] is missing or empty, every kept suggestion comes back,
    in order, with the score ['N/A']. *)
Theorem keyword_research_marks_unavailable
  (search : dict -> outcome dict) (topic : string) (w : world)
  (autocomplete trends : dict) :
  search (autocomplete_params (SERPAPI_API_KEY (module_globals w)) topic)
    = Ok autocomplete ->
  autocomplete_response autocomplete = true ->
  suggestion_strings autocomplete <> [] ->
  search (trends_params (SERPAPI_API_KEY (module_globals w))
            (String.concat ", " (suggestion_strings autocomplete))) = Ok trends ->
  dict_lookup trends "interest_over_time" = None
  \/ (exists d, dict_lookup trends "interest_over_time" = Some (VDict d)
                /\ truthy (dict_get d "timeline_data" (VList [])) = false) ->
  fst (keyword_research search topic w)
  = Ok (map (fun s => keyword_entry (VStr s) (VStr "N/A"))
            (suggestion_strings autocomplete)).
Proof.
  intros Hauto Hty Hne Htrends Hno.
  destruct (suggestion_strings autocomplete) as [|s0 rest] eqn:Es; [congruence|].
  rewrite (keyword_research_run _ _ _ _ _ _ Hauto Hty Es). cbn [fst].
  rewrite Htrends. destruct Hno as [-> | (d & -> & Hf)].
  - rewrite unscored_keywords_is_map, map_map. reflexivity.
  - cbn [get obind]. rewrite scored_keywords_no_timeline by exact Hf.
    rewrite map_map. reflexivity.
Qed.

Lemma keyword_research_marks_unavailable_witness :
  fst (keyword_research unanswered_trends_service "home automation" sample_world)
  = Ok [keyword_entry (VStr "home automation ideas") (VStr "N/A");
        keyword_entry (VStr "home automation hub") (VStr "N/A")].
Proof.
  refine (keyword_research_marks_unavailable unanswered_trends_service
            "home automation" sample_world
            [("suggestions",
              VList [VDict [("value", VStr "home automation ideas")];
                     VDict [("value", VStr "home automation hub")]])]
            [("interest_over_time", VDict [("timeline_data", VList [])])]
            _ _ _ _ _);
    [reflexivity | reflexivity | discriminate | reflexivity
    | right; eexists; split; reflexivity].
Defined.

Lemma length_suggestion_strings autocomplete :
  (length (suggestion_strings autocomplete) <= 5)%nat.
Proof.
  unfold suggestion_strings.
  destruct (dict_lookup autocomplete "suggestions") as [[| | | |items|]|];
    simpl; try lia.
  etransitivity; [apply length_omap_le|]. rewrite length_firstn. apply Nat.le_min_l.
Qed.

(** X7. The trends service is asked once, for the kept suggestions (at most
    five) joined by a comma and a space, whatever it then answers. *)
Theorem keyword_research_trends_query
  (search : dict -> outcome dict) (topic : string) (w : world)
  (autocomplete : dict) :
  search (autocomplete_params (SERPAPI_API_KEY (module_globals w)) topic)
    = Ok autocomplete ->
  autocomplete_response autocomplete = true ->
  suggestion_strings autocomplete <> [] ->
  requests (snd (keyword_research search topic w))
  = requests w ++
    [GoogleSearch_get_dict
       (autocomplete_params (SERPAPI_API_KEY (module_globals w)) topic);
     GoogleSearch_get_dict
       [("api_key", SERPAPI_API_KEY (module_globals w));
        ("engine", VStr "google_trends");
        ("q", VStr (String.concat ", " (suggestion_strings autocomplete)));
        ("data_type", VStr "TIMESERIES")]]
  /\ (length (suggestion_strings autocomplete) <= 5)%nat.
Proof.
  intros Hauto Hty Hne. split; [|apply length_suggestion_strings].
  destruct (suggestion_strings autocomplete) as [|s0 rest] eqn:Es; [congruence|].
  rewrite (keyword_research_run _ _ _ _ _ _ Hauto Hty Es). reflexivity.
Qed.

Lemma keyword_research_trends_query_witness :
  requests (snd (keyword_research full_trends_service "home automation" sample_world))
  = [GoogleSearch_get_dict
       [("api_key", VStr "key"); ("engine", VStr "google_autocomplete");
        ("q", VStr "home automation")];
     GoogleSearch_get_dict
       [("api_key", VStr "key"); ("engine", VStr "google_trends");
        ("q", VStr "home automation ideas, home automation hub");
        ("data_type", VStr "TIMESERIES")]].
Proof.
  refine (proj1 (keyword_research_trends_query full_trends_service
                   "home automation" sample_world
                   [("suggestions",
                     VList [VDict [("value", VStr "home automation ideas")];
                            VDict [("value", VStr "home automation hub")]])]
                   _ _ _));
    [reflexivity | reflexivity | discriminate].
Defined.

Lemma list_index_lookup {A} (l : list A) (i : nat) x :
  l !! i = Some x -> list_index l (Z.of_nat i) = Some x.
Proof.
  intros Hx. pose proof (lookup_lt_Some _ _ _ Hx) as Hlt. unfold list_index.
  replace (Z.of_nat i <? 0) with false by (symmetry; apply Z.ltb_ge; lia).
  replace (0 <=? Z.of_nat i) with true by (symmetry; apply Z.leb_le; lia).
  replace (Z.of_nat i <? Z.of_nat (length l)) with true
    by (symmetry; apply Z.ltb_lt; lia).
  simpl. now rewrite Nat2Z.id, nth_error_is_lookup.
Qed.

Lemma last_value_at_last tl e values (i : nat) d :
  last tl = Some (VDict e) ->
  dict_lookup e "values" = Some (VList values) ->
  values !! i = Some (VDict d) ->
  last_value_at (VList tl) (Z.of_nat i) = Ok (dict_get d "value" VNone).
Proof.
  intros Hlast Hvalues Hi. unfold last_value_at.
  destruct tl as [|t0 tl]; [discriminate|].
  change (truthy (VList (t0 :: tl))) with true. cbv iota.
  unfold getitem_int at 1. rewrite list_index_last by discriminate.
  rewrite Hlast. simpl. rewrite Hvalues. simpl.
  rewrite (list_index_lookup _ _ _ Hi). reflexivity.
Qed.

Lemma scored_keywords_from_last tl e values suggestions (i : nat) keyword_data :
  last tl = Some (VDict e) ->
  dict_lookup e "values" = Some (VList values) ->
  (forall j, (i <= j < i + length suggestions)%nat ->
             exists d, values !! j = Some (VDict d)) ->
  scored_keywords (VList tl) (Z.of_nat i) suggestions keyword_data
  = Ok (keyword_data
        ++ zip_with keyword_entry suggestions (map value_of (drop i values))).
Proof.
  intros Hlast Hvalues. revert i keyword_data.
  induction suggestions as [|k rest IH]; intros i kd Hd.
  - simpl. now rewrite app_nil_r.
  - destruct (Hd i) as [d Hi]; [simpl; lia|].
    cbn [scored_keywords]. rewrite (last_value_at_last _ _ _ _ _ Hlast Hvalues Hi).
    cbn [obind]. replace (Z.of_nat i + 1) with (Z.of_nat (S i)) by lia.
    rewrite IH by (intros j Hj; apply Hd; simpl; lia).
    rewrite (drop_S _ _ _ Hi). cbn [map zip_with value_of].
    rewrite <- app_assoc. reflexivity.
Qed.

(** X8. With trends data, the score of the i-th kept suggestion is the
    ['value'] of the i-th element of ['values'] in the last element of
    ['timeline_data'] ([None] when that element has no ['value']); earlier
    timeline elements and further values play no part. *)
Theorem keyword_research_scores_from_last_element
  (search : dict -> outcome dict) (topic : string) (w : world)
  (autocomplete trends interest last_element : dict)
  (timeline values : list value) :
  search (autocomplete_params (SERPAPI_API_KEY (module_globals w)) topic)
    = Ok autocomplete ->
  autocomplete_response autocomplete = true ->
  suggestion_strings autocomplete <> [] ->
  search (trends_params (SERPAPI_API_KEY (module_globals w))
            (String.concat ", " (suggestion_strings autocomplete))) = Ok trends ->
  dict_lookup trends "interest_over_time" = Some (VDict interest) ->
  dict_lookup interest "timeline_data" = Some (VList timeline) ->
  last timeline = Some (VDict last_element) ->
  dict_lookup last_element "values" = Some (VList values) ->
  (length (suggestion_strings autocomplete) <= length values)%nat ->
  forallb is_dict values = true ->
  fst (keyword_research search topic w)
  = Ok (zip_with keyword_entry (map VStr (suggestion_strings autocomplete))
                 (map value_of values)).
Proof.
  intros Hauto Hty Hne Htrends Hint Htl Hlast Hvalues Hlen Hdicts.
  destruct (suggestion_strings autocomplete) as [|s0 rest] eqn:Es; [congruence|].
  rewrite (keyword_research_run _ _ _ _ _ _ Hauto Hty Es). cbn [fst].
  rewrite Htrends, Hint. cbn [get obind]. unfold dict_get. rewrite Htl.
  change 0 with (Z.of_nat 0).
  rewrite (scored_keywords_from_last _ _ _ _ _ _ Hlast Hvalues); [reflexivity|].
  intros j Hj. rewrite length_map in Hj.
  destruct (values !! j) as [x|] eqn:Ex.
  - rewrite forallb_forall in Hdicts.
    assert (Hx : In x values) by (apply list_elem_of_In, list_elem_of_lookup; eauto).
    specialize (Hdicts x Hx). destruct x; try discriminate. eauto.
  - apply lookup_ge_None in Ex. lia.
Qed.

Lemma keyword_research_scores_from_last_element_witness :
  fst (keyword_research full_trends_service "home automation" sample_world)
  = Ok [keyword_entry (VStr "home automation ideas") (VStr "57");
        keyword_entry (VStr "home automation hub") (VStr "12")].
Proof.
  refine (keyword_research_scores_from_last_element full_trends_service
            "home automation" sample_world
            [("suggestions",
              VList [VDict [("value", VStr "home automation ideas")];
                     VDict [("value", VStr "home automation hub")]])]
            [("interest_over_time", VDict [("timeline_data", VList sample_timeline)])]
            [("timeline_data", VList sample_timeline)]
            [("values", VList sample_values)]
            sample_timeline sample_values
            _ _ _ _ _ _ _ _ _ _);
    [reflexivity | reflexivity | discriminate | reflexivity | reflexivity
    | reflexivity | reflexivity | reflexivity | simpl; lia | reflexivity].
Defined.

(** ** The API key *)

(** X9. Every request to the search service carries, as ['api_key'], what the
    environment variable [SERPER_API_KEY] held when the module was imported
    ([None] when it was unset). *)
Theorem requests_carry_the_key_read_at_import
  (getenv : string -> value) (earlier : list request)
  (search : dict -> outcome dict) :
  (forall query engine location device,
     exists r,
       requests (snd (multi_engine_search search query engine location device
                        (World (module_init getenv) earlier)))
       = earlier ++ [r]
       /\ api_key_of r = Some (getenv "SERPER_API_KEY"))
  /\ (forall topic,
     exists sent,
       requests (snd (keyword_research search topic
                        (World (module_init getenv) earlier)))
       = earlier ++ sent
       /\ sent <> []
       /\ Forall (fun r => api_key_of r = Some (getenv "SERPER_API_KEY")) sent).
Proof.
  split.
  - intros. eexists. split; [apply multi_engine_search_frame|reflexivity].
  - intros topic.
    destruct (keyword_research_frame search topic (World (module_init getenv) earlier))
      as (_ & sent & Hsent & [-> | [q ->]]);
      exists sent || eexists; (split; [exact Hsent|]);
      (split; [discriminate|]); repeat constructor.
Qed.

End SearchMcpMore.

(* ===================================================================== *)
(** * More on the two UI scripts                                         *)
(* ===================================================================== *)

Module AppMore.
Import Py CrewAI Streamlit Claims Properties Samples PyFacts AppFacts.



Lemma direct_main_ends api kickoff topic generate_button :
  snd (DirectApp.main api kickoff topic generate_button) = Ok tt.
Proof.
  unfold DirectApp.main. destruct generate_button; [|reflexivity].
  pose proof (direct_on_generate_ends api kickoff topic) as Hend.
  destruct (DirectApp.on_generate api kickoff topic) as [t r]. simpl in Hend.
  subst r. reflexivity.
Qed.

Lemma mcp_main_ends pat connect kickoff topic generate_button :
  snd (McpApp.main pat connect kickoff topic generate_button) = Ok tt.
Proof.
  unfold McpApp.main. destruct generate_button; [|reflexivity].
  pose proof (mcp_on_generate_ends pat connect kickoff topic) as Hend.
  destruct (McpApp.on_generate pat connect kickoff topic) as [t r]. simpl in Hend.
  subst r. reflexivity.
Qed.

(** X10. Whatever the topic, the button, the adapter and the runtime do, [main]
    of either variant ends normally and ends with the sidebar: no exception
    of a run keeps the rest of the page from being drawn. *)
Theorem page_is_always_completed
  (api : option string) (pat : string)
  (connect : server_params_t -> outcome (list string))
  (kickoff_direct kickoff_mcp : Crew -> outcome CrewOutput)
  (topic : string) (generate_button : bool) :
  (snd (DirectApp.main api kickoff_direct topic generate_button) = Ok tt
   /\ exists before,
        trace (DirectApp.main api kickoff_direct topic generate_button)
        = trace DirectApp.page_top ++ before ++ trace DirectApp.sidebar)
  /\ (snd (McpApp.main pat connect kickoff_mcp topic generate_button) = Ok tt
      /\ exists before,
           trace (McpApp.main pat connect kickoff_mcp topic generate_button)
           = trace McpApp.page_top ++ before ++ trace McpApp.sidebar).
Proof.
  split; (split; [first [apply direct_main_ends | apply mcp_main_ends]|]).
  - eexists. apply direct_main_trace.
  - eexists. apply mcp_main_trace.
Qed.

(** ** Nesting of the [with] blocks *)



(** ** Download or error *)


(** ** The guards of the remote-tool script *)

(** X13. When [CLARIFAI_PAT] or [SERPER_API_KEY] is unset or empty, the script
    shows one error and stops: it draws no input, contacts no tool server
    and starts no run, whatever the topic and the button; the token is
    looked at first. With both set, the script is [main]. *)
Theorem mcp_script_needs_both_variables
  (CLARIFAI_PAT SERPER_API_KEY : option string)
  (connect : server_params_t -> outcome (list string))
  (kickoff : Crew -> outcome CrewOutput) (topic : string) (generate_button : bool) :
  (is_set CLARIFAI_PAT = false ->
     McpApp.script CLARIFAI_PAT SERPER_API_KEY connect kickoff topic generate_button
     = ([st_error "Please set CLARIFAI_PAT environment variable"; st_stop], Ok tt))
  /\ (is_set CLARIFAI_PAT = true -> is_set SERPER_API_KEY = false ->
     McpApp.script CLARIFAI_PAT SERPER_API_KEY connect kickoff topic generate_button
     = ([st_error "Please set SERPER_API_KEY environment variable"; st_stop], Ok tt))
  /\ (is_set CLARIFAI_PAT && is_set SERPER_API_KEY = false ->
     List.filter (fun a => starts_run a || draws_input a)
       (trace (McpApp.script CLARIFAI_PAT SERPER_API_KEY connect kickoff
                 topic generate_button)) = [])
  /\ (forall pat, CLARIFAI_PAT = Some pat ->
     is_set CLARIFAI_PAT && is_set SERPER_API_KEY = true ->
     McpApp.script CLARIFAI_PAT SERPER_API_KEY connect kickoff topic generate_button
     = McpApp.main pat connect kickoff topic generate_button).
Proof.
  unfold McpApp.script, is_set.
  destruct CLARIFAI_PAT as [pat|]; [destruct (String.eqb pat "")|];
    (destruct SERPER_API_KEY as [key|]; [destruct (String.eqb key "")|]);
    simpl; repeat split; try discriminate; try reflexivity;
    intros; simplify_eq; reflexivity.
Qed.

End AppMore.

(* ===================================================================== *)
(** * The test client and the set-up script                              *)
(* ===================================================================== *)

Module ClientFacts.
Import Py Properties PyFacts.
Import SearchMcpClient.

Lemma print_tools_run tools :
  print_tools tools
  = (map (fun nd => Print [Lit "- "; Lit (fst nd); Lit ": "; Fmt (snd nd)]) tools,
     Ok tt).
Proof.
  induction tools as [|[name description] tools IH]; [reflexivity|].
  simpl. unfold bind, emit. rewrite IH. reflexivity.
Qed.

Lemma print_links_run l :
  print_links l = (map (fun link => Print [Lit "- "; Fmt link]) l, Ok tt).
Proof.
  induction l as [|link l IH]; [reflexivity|].
  simpl. unfold bind, emit. rewrite IH. reflexivity.
Qed.

(** The loops of the last two tests print and do nothing else. *)
Lemma print_contents_prints pairs :
  exists texts r, print_contents pairs = (map Print texts, r).
Proof.
  induction pairs as [|[u content] pairs (texts & r & IH)].
  - exists [], (Ok tt). reflexivity.
  - simpl. unfold bind, emit. destruct (slice_to content 500) as [shown|e].
    + rewrite IH. eexists (_ :: texts), r. reflexivity.
    + exists [], (Raise e). reflexivity.
Qed.

Lemma print_keywords_prints entries :
  exists texts r, print_keywords entries = (map Print texts, r).
Proof.
  induction entries as [|item entries (texts & r & IH)].
  - exists [], (Ok tt). reflexivity.
  - simpl. unfold bind, emit.
    destruct (get item "keyword" VNone) as [keyword|e];
      [|exists [], (Raise e); reflexivity].
    destruct (get item "relative_popularity_score" VNone) as [score|e];
      [|exists [], (Raise e); reflexivity].
    rewrite IH. eexists (_ :: texts), r. reflexivity.
Qed.

(** Each test prints its title, makes its one call and prints; it ends
    normally whatever the call does. *)
Lemma test_multi_engine_search_shape call_tool :
  exists texts,
    test_multi_engine_search call_tool
    = (Print [Lit "Testing: multi_engine_search..."]
       :: Client_call_tool "multi_engine_search" search_arguments
       :: map Print texts, Ok tt).
Proof.
  unfold test_multi_engine_search, call, print, emit, bind, try_except.
  destruct (call_tool "multi_engine_search" search_arguments) as [v|e].
  - destruct v; try (eexists [_]; reflexivity).
    rewrite print_links_run. eexists (_ :: map _ l). simpl.
    now rewrite map_map.
  - eexists [_]. reflexivity.
Qed.

Lemma test_extract_shape call_tool :
  exists texts,
    test_extract call_tool
    = (Print [Lit "Testing: extract_web_content_from_links..."]
       :: Client_call_tool "extract_web_content_from_links" [("urls", VList links)]
       :: map Print texts, Ok tt).
Proof.
  unfold test_extract, call, print, emit, bind, try_except.
  destruct (call_tool "extract_web_content_from_links" [("urls", VList links)])
    as [v|e]; [|eexists [_]; reflexivity].
  destruct (items v) as [pairs|e]; [|eexists [_]; reflexivity].
  destruct (print_contents_prints pairs) as (texts & r & ->).
  destruct r as [[]|e].
  - exists texts. simpl. now rewrite ?app_nil_r.
  - exists (texts ++ [[Lit "Error: "; Lit (str_exn e)]]). simpl.
    now rewrite ?map_app, ?app_nil_r.
Qed.

Lemma test_keyword_research_shape call_tool :
  exists texts,
    test_keyword_research call_tool
    = (Print [Lit "Testing: keyword_research..."]
       :: Client_call_tool "keyword_research" [("topic", VStr "home automation")]
       :: map Print texts, Ok tt).
Proof.
  unfold test_keyword_research, call, print, emit, bind, try_except.
  destruct (call_tool "keyword_research" [("topic", VStr "home automation")])
    as [v|e]; [|eexists [_]; reflexivity].
  destruct (iter v) as [entries|e]; [|eexists [_; _]; reflexivity].
  destruct (print_keywords_prints entries) as (texts & r & ->).
  destruct r as [[]|e].
  - exists ([Lit "Keyword research results:"] :: texts). simpl. now rewrite ?app_nil_r.
  - exists ([Lit "Keyword research results:"] :: texts
            ++ [[Lit "Error: "; Lit (str_exn e)]]). simpl.
    now rewrite ?map_app, ?app_nil_r.
Qed.

Lemma client_requests_prints inside texts t :
  client_requests inside (map Print texts ++ t) = client_requests inside t.
Proof. induction texts as [|x texts IH]; simpl; auto. Qed.

Lemma client_requests_lines {X} inside (l : list X) (f : X -> list piece) t :
  client_requests inside (map (fun x => Print (f x)) l ++ t)
  = client_requests inside t.
Proof. induction l as [|x l IH]; simpl; auto. Qed.

Lemma client_requests_only_prints inside texts :
  client_requests inside (map Print texts) = [].
Proof. induction texts as [|x texts IH]; simpl; auto. Qed.

(** X14. Once the client is connected and the tools are listed, the script ends
    normally whatever the three calls return or raise; it calls the three
    tools once each, in the order search, extraction, keywords; and it makes
    these calls after the [async with] block is left, only [list_tools] being
    asked inside it. *)
Theorem client_calls_three_tools_outside_the_block
  (connect : transport_t -> outcome unit) (tools : list (string * value))
  (call_tool : string -> dict -> outcome value) (t : transport_t) :
  connect t = Ok tt ->
  snd (main connect (Ok tools) call_tool t) = Ok tt
  /\ client_requests false (trace_of (main connect (Ok tools) call_tool t))
     = [(true, "list_tools"); (false, "multi_engine_search");
        (false, "extract_web_content_from_links"); (false, "keyword_research")].
Proof.
  intros Hc. unfold main, listing. rewrite Hc.
  unfold print, emit, bind, try_except. rewrite print_tools_run.
  destruct (test_multi_engine_search_shape call_tool) as (t1 & ->).
  destruct (test_extract_shape call_tool) as (t2 & ->).
  destruct (test_keyword_research_shape call_tool) as (t3 & ->).
  unfold trace_of. simpl. split; [reflexivity|].
  rewrite ?app_nil_r, <- ?app_assoc.
  rewrite (client_requests_lines _ _ (fun nd : string * value =>
             [Lit "- "; Lit (fst nd); Lit ": "; Fmt (snd nd)])). simpl.
  rewrite client_requests_prints. simpl.
  rewrite client_requests_prints. simpl.
  rewrite ?app_nil_r, ?client_requests_only_prints. reflexivity.
Qed.

Lemma client_calls_three_tools_outside_the_block_witness :
  client_requests false
    (trace_of (main (fun _ => Ok tt) (Ok [("multi_engine_search", VNone)])
                 (fun _ _ => Raise (Exception "RuntimeError" "Client is not connected"))
                 (MkTransport url [("Authorization", "Bearer pat")])))
  = [(true, "list_tools"); (false, "multi_engine_search");
     (false, "extract_web_content_from_links"); (false, "keyword_research")].
Proof.
  refine (proj2 (client_calls_three_tools_outside_the_block
                   (fun _ => Ok tt) [("multi_engine_search", VNone)]
                   (fun _ _ => Raise (Exception "RuntimeError" "Client is not connected"))
                   (MkTransport url [("Authorization", "Bearer pat")]) _)).
  reflexivity.
Defined.

(** X15. A failed connection is not caught: [main] ends with the exception right
    after the banner. A failure to list the tools is caught: the error is
    printed, the block is left and [main] returns without calling a tool.
    And with [CLARIFAI_PAT] unset the script raises before it prints. *)
Theorem client_failures_before_the_tests
  (connect : transport_t -> outcome unit)
  (list_tools : outcome (list (string * value)))
  (call_tool : string -> dict -> outcome value) (t : transport_t) :
  match connect t, list_tools with
  | Raise e, _ =>
      main connect list_tools call_tool t
      = ([Print [Lit ("=== SerpAPI MCP Server ===" +:+ String "010"%char "")]],
         Raise e)
  | Ok _, Raise e =>
      main connect list_tools call_tool t
      = ([Print [Lit ("=== SerpAPI MCP Server ===" +:+ String "010"%char "")];
          Client_enter t;
          Print [Lit "Available Tools: "];
          Client_list_tools;
          Print [Lit "Error listing tools: "; Lit (str_exn e)];
          Client_exit], Ok tt)
  | Ok _, Ok _ => True
  end
  /\ exists e, script None connect list_tools call_tool = ([], Raise e)
               /\ exc_class e = "TypeError".
Proof.
  split.
  - unfold main, listing. destruct (connect t) as [[]|e]; [|reflexivity].
    destruct list_tools as [tools|e]; [exact I | reflexivity].
  - eexists. split; reflexivity.
Qed.

Lemma printed_lines {X} (f : X -> list piece) (l : list X) t :
  printed (map (fun x => Print (f x)) l ++ t) = map f l ++ printed t.
Proof.
  unfold printed. induction l as [|x l IH]; csimpl; [reflexivity|].
  now rewrite IH.
Qed.

Lemma printed_map {X} (f : X -> list piece) (l : list X) :
  printed (map (fun x => Print (f x)) l) = map f l.
Proof.
  rewrite <- (app_nil_r (map _ l)), printed_lines. apply app_nil_r.
Qed.

(** X16. The search test prints one line for each element of the reply, however
    many there are, under the title ['Top 5 links:']; a reply that is not a
    list gets the line ['Unexpected response format: not a list']. *)
Theorem client_search_test_prints_every_link
  (call_tool : string -> dict -> outcome value) (reply : value) :
  call_tool "multi_engine_search" search_arguments = Ok reply ->
  printed (trace_of (test_multi_engine_search call_tool))
  = [Lit "Testing: multi_engine_search..."]
    :: match reply with
       | VList l =>
           [Lit "Top 5 links:"] :: map (fun link => [Lit "- "; Fmt link]) l
       | _ => [[Lit "Unexpected response format: not a list"]]
       end.
Proof.
  intros Hreply. unfold test_multi_engine_search, call, print, emit, bind, try_except.
  rewrite Hreply. destruct reply; try reflexivity.
  rewrite print_links_run. unfold trace_of. cbn [fst app].
  change (printed (?a :: ?b :: ?c :: ?t)) with (printed ([a; b; c] ++ t)).
  unfold printed at 1. csimpl. do 2 f_equal.
  apply (printed_map (fun link => [Lit "- "; Fmt link])).
Qed.

Lemma client_search_test_prints_every_link_witness :
  printed (trace_of (test_multi_engine_search
                       (fun _ _ => Ok (VList [VStr "a"; VStr "b"; VStr "c"; VStr "d";
                                              VStr "e"; VStr "f"]))))
  = [[Lit "Testing: multi_engine_search..."]; [Lit "Top 5 links:"];
     [Lit "- "; Fmt (VStr "a")]; [Lit "- "; Fmt (VStr "b")];
     [Lit "- "; Fmt (VStr "c")]; [Lit "- "; Fmt (VStr "d")];
     [Lit "- "; Fmt (VStr "e")]; [Lit "- "; Fmt (VStr "f")]].
Proof.
  apply (client_search_test_prints_every_link
           (fun _ _ => Ok (VList [VStr "a"; VStr "b"; VStr "c"; VStr "d";
                                  VStr "e"; VStr "f"]))
           (VList [VStr "a"; VStr "b"; VStr "c"; VStr "d"; VStr "e"; VStr "f"])).
  reflexivity.
Defined.




End ClientFacts.

Module CreateAppFacts.
Import Py PyFacts CreateApp.

Lemma str_contains_inside needle before after :
  str_contains needle (before +:+ needle +:+ after) = true.
Proof.
  induction before as [|c before IH].
  - change ("" +:+ needle +:+ after) with (needle +:+ after).
    pose proof (startswith_append needle after) as Hp. unfold startswith in Hp.
    destruct (needle +:+ after); cbn [str_contains]; rewrite Hp; reflexivity.
  - change (String c before +:+ needle +:+ after)
      with (String c (before +:+ needle +:+ after)).
    cbn [str_contains]. rewrite IH. apply orb_true_r.
Qed.

(** X18. The set-up script asks nothing of the platform unless the token is set,
    not empty and free of the placeholder [YOUR_CLARIFAI_PAT]: otherwise its
    assertion fails before a user object is made or an application is
    created. *)
Theorem create_app_needs_a_real_token
  (CLARIFAI_PAT : option string)
  (create_app : string -> string -> outcome string) :
  CLARIFAI_PAT = None
  \/ CLARIFAI_PAT = Some ""
  \/ (exists before after,
        CLARIFAI_PAT = Some (before +:+ "YOUR_CLARIFAI_PAT" +:+ after)) ->
  fst (script CLARIFAI_PAT create_app) = []
  /\ exists msg, snd (script CLARIFAI_PAT create_app) = Raise (AssertionError msg).
Proof.
  intros [-> | [-> | (before & after & ->)]].
  - split; [reflexivity | eexists; reflexivity].
  - split; [reflexivity | eexists; reflexivity].
  - unfold script, pat_accepted. rewrite str_contains_inside, andb_false_r.
    split; [reflexivity | eexists; reflexivity].
Qed.

Lemma create_app_needs_a_real_token_witness :
  fst (script (Some "Key YOUR_CLARIFAI_PAT") (fun _ _ => Ok "mcp-examples")) = [].
Proof.
  refine (proj1 (create_app_needs_a_real_token (Some "Key YOUR_CLARIFAI_PAT")
                   (fun _ _ => Ok "mcp-examples") _)).
  right. right. exists "Key ", "". reflexivity.
Defined.

(** X19. With an accepted token the script makes the user [nperla] with that
    token and asks once for the application [mcp-examples] on the workflow
    [General]; it prints the application's id only when that succeeds. *)
Theorem create_app_asks_once
  (pat : string) (create_app : string -> string -> outcome string) :
  pat_accepted (Some pat) = true ->
  exists after,
    fst (script (Some pat) create_app)
    = [User_new "nperla" pat; User_create_app "mcp-examples" "General"] ++ after
    /\ match create_app "mcp-examples" "General" with
       | Ok app_id =>
           after = [Print ("✅ Created app: " +:+ app_id)]
           /\ snd (script (Some pat) create_app) = Ok tt
       | Raise e => after = [] /\ snd (script (Some pat) create_app) = Raise e
       end.
Proof.
  intros Hacc. unfold script. rewrite Hacc.
  destruct (create_app "mcp-examples" "General"); eexists; split; try reflexivity;
    split; reflexivity.
Qed.

Lemma create_app_asks_once_witness :
  fst (script (Some "token") (fun _ _ => Ok "mcp-examples"))
  = [User_new "nperla" "token"; User_create_app "mcp-examples" "General";
     Print "✅ Created app: mcp-examples"].
Proof.
  destruct (create_app_asks_once "token" (fun _ _ => Ok "mcp-examples"))
    as (after & Htrace & Hafter & _); [reflexivity|].
  rewrite Htrace, Hafter. reflexivity.
Defined.

End CreateAppFacts.
